(** * The session-scoped intent router of [src/api/main.py]

    A shallow embedding of the keyword registry, the input guardrail
    [topic_guardrail] and the chat handler [main], followed by the properties
    of the router's state machine.

    Representation.  A Python [str] is a Rocq [string] holding its UTF-8
    bytes, so that the literals of the source are written as they stand.
    Substring search, [startswith] and concatenation act on the bytes exactly
    as they act on the code points.  [lower] folds the letters A-Z and the
    two characters outside ASCII whose lower case holds an ASCII letter: the
    Kelvin sign U+212A, which becomes "k", and the dotted capital I U+0130,
    which becomes "i" followed by the combining dot U+0307.  [str.lower]
    sends every other character outside ASCII to characters outside ASCII,
    and [str.strip] removes, besides the ASCII white space modelled here,
    only characters outside ASCII; these are left as they are, which changes
    no search for a word written in ASCII without white space, as all the
    words of the source are. *)

From Stdlib Require Import Ascii String List Bool NArith.
From stdpp Require Import gmap strings list fin_maps.
Import ListNotations.
Local Open Scope string_scope.

(** ** Python string primitives *)

Module Py.

(** [c.isspace()] on the ASCII range: TAB..CR, FS..US and the blank. *)
Definition isspace (c : ascii) : bool :=
  let n := N_of_ascii c in
  ((9 <=? n) && (n <=? 13) || (28 <=? n) && (n <=? 32))%N.

(** [c.lower()] on the ASCII range. *)
Definition lower_char (c : ascii) : ascii :=
  let n := N_of_ascii c in
  if ((65 <=? n) && (n <=? 90))%N then ascii_of_N (n + 32) else c.

(** The bytes E2 84 AA, that is U+212A, the Kelvin sign. *)
Definition is_kelvin_sign (c1 c2 c3 : ascii) : bool :=
  Ascii.eqb c1 "226" && Ascii.eqb c2 "132" && Ascii.eqb c3 "170".

(** The bytes C4 B0, that is U+0130, the dotted capital I. *)
Definition is_dotted_capital_i (c1 c2 : ascii) : bool :=
  Ascii.eqb c1 "196" && Ascii.eqb c2 "176".

(** [s.lower()]: ["i"] and the bytes CC 87 of U+0307 for U+0130, ["k"] for
    U+212A, [lower_char] for any other byte. *)
Fixpoint lower (s : string) : string :=
  match s with
  | EmptyString => EmptyString
  | String c1 s1 =>
      match s1 with
      | EmptyString => String (lower_char c1) EmptyString
      | String c2 s2 =>
          if is_dotted_capital_i c1 c2 then
            String "i" (String "204" (String "135" (lower s2)))
          else
            match s2 with
            | EmptyString => String (lower_char c1) (lower s1)
            | String c3 s3 =>
                if is_kelvin_sign c1 c2 c3 then String "k" (lower s3)
                else String (lower_char c1) (lower s1)
            end
      end
  end.

(** [s.lstrip()] *)
Fixpoint lstrip (s : string) : string :=
  match s with
  | EmptyString => EmptyString
  | String c s' => if isspace c then lstrip s' else s
  end.

(** [s.rstrip()] *)
Fixpoint rstrip (s : string) : string :=
  match s with
  | EmptyString => EmptyString
  | String c s' =>
      match rstrip s' with
      | EmptyString => if isspace c then EmptyString else String c EmptyString
      | r => String c r
      end
  end.

(** [s.strip()] *)
Definition strip (s : string) : string := rstrip (lstrip s).

(** [s.startswith(p)] *)
Definition startswith (s p : string) : bool := String.prefix p s.

(** [sub in s] for two strings: [sub] occurs in [s] at some offset. *)
Fixpoint str_in (sub s : string) : bool :=
  String.prefix sub s ||
  match s with
  | EmptyString => false
  | String _ s' => str_in sub s'
  end.

(** [sep.join(parts)] *)
Fixpoint join (sep : string) (parts : list string) : string :=
  match parts with
  | [] => ""
  | [p] => p
  | p :: rest => p ++ sep ++ join sep rest
  end.

(** [any(f(x) for x in l)] *)
Definition any {A} (f : A -> bool) (l : list A) : bool := existsb f l.

End Py.

(** ** Exceptions and outcomes of calls *)

(** The exceptions the handler tells apart.  [Exception msg] is an instance
    of [Exception] other than the tripwire, with [str(e) = msg];
    [BaseException msg] is a signal outside the [Exception] hierarchy
    (KeyboardInterrupt, CancelledError and the like). *)
Inductive exn : Type :=
| InputGuardrailTripwireTriggered
| Exception (msg : string)
| BaseException (msg : string).

(** [isinstance(e, Exception)] *)
Definition isinstance_Exception (e : exn) : bool :=
  match e with
  | InputGuardrailTripwireTriggered | Exception _ => true
  | BaseException _ => false
  end.

Inductive outcome (A : Type) : Type :=
| Return (a : A)
| Raise (e : exn).
Arguments Return {A} a.
Arguments Raise {A} e.

(** ** Agents and the keyword registry *)

Record Agent : Type := mkAgent {
  name : string;
  instructions : string
}.

Definition domain_keywords : list (string * list string) :=
  [ ("WebDeveloper",
      ["website"; "frontend"; "backend"; "html"; "css"; "javascript"; "react"; "next.js"]);
    ("DigitalMarketer",
      ["seo"; "marketing"; "social media"; "ad"; "campaign"; "ppc"; "content strategy"]);
    ("ContentWriter",
      ["blog"; "article"; "content"; "write"; "copywriting"; "post"]) ].

(** [domain_keywords.values()] *)
Definition domain_keywords_values : list (list string) := map snd domain_keywords.

Definition guardrail_agent : Agent :=
  {| name := "TopicGuardrail";
     instructions :=
       "Detect if the user query is outside Web Development, Marketing, or Content Writing topics." |}.

Definition web_dev_agent : Agent :=
  {| name := "WebDeveloper";
     instructions :=
       "You are a skilled web developer. Provide code samples, architecture decisions, and best practices." |}.

Definition digital_marketer_agent : Agent :=
  {| name := "DigitalMarketer";
     instructions :=
       "You are a creative digital marketer. Craft marketing strategies, SEO recommendations, ad copy, and social media plans." |}.

Definition content_writer_agent : Agent :=
  {| name := "ContentWriter";
     instructions :=
       "You are a talented content writer. Produce clear, engaging, and SEO-friendly content." |}.

Definition manager : Agent :=
  {| name := "Manager";
     instructions :=
       "Delegate user queries to WebDeveloper, DigitalMarketer, or ContentWriter based on domain keywords. "
       ++ "Reject any request outside these domains." |}.

(** ** The input guardrail *)

(** An input item of the SDK: a [TypedDict], hence a plain [dict] when the
    program runs. *)
Definition TResponseInputItem : Type := gmap string string.

(** The argument type [str | list[TResponseInputItem]]. *)
Inductive GuardrailInput : Type :=
| InputStr (s : string)
| InputItems (items : list TResponseInputItem).

(** [item.content]: a [dict] has no attribute of that name, whatever its
    keys are. *)
Definition item_dot_content (item : TResponseInputItem) : outcome string :=
  Raise (Exception "'dict' object has no attribute 'content'").

(** The values of the generator [item.content for item in input], as the
    join consumes them. *)
Fixpoint item_contents (items : list TResponseInputItem) : outcome (list string) :=
  match items with
  | [] => Return []
  | item :: rest =>
      match item_dot_content item with
      | Raise e => Raise e
      | Return c =>
          match item_contents rest with
          | Raise e => Raise e
          | Return cs => Return (c :: cs)
          end
      end
  end.

Record GuardrailFunctionOutput : Type := {
  output_info : string;
  tripwire_triggered : bool
}.

(** The first line of [topic_guardrail]. *)
Definition input_text (input : GuardrailInput) : outcome string :=
  match input with
  | InputStr s => Return s
  | InputItems items =>
      match item_contents items with
      | Raise e => Raise e
      | Return contents => Return (Py.join " " contents)
      end
  end.

(** The deterministic part of [topic_guardrail]: the value of [allowed]. *)
Definition keyword_allowed (text : string) : bool :=
  let lower := Py.lower text in
  Py.any (fun kws => Py.any (fun kw => Py.str_in kw lower) kws) domain_keywords_values.

Section Guardrail.

(** [Runner.run(agent, text)] for an agent without guardrails: what the
    inference service answers, or the error it raises. *)
Variable Runner_run : Agent -> string -> outcome string.

Definition topic_guardrail (agent : Agent) (input : GuardrailInput)
  : outcome GuardrailFunctionOutput :=
  match input_text input with
  | Raise e => Raise e
  | Return text =>
      let allowed := keyword_allowed text in
      match Runner_run guardrail_agent text with
      | Raise e => Raise e
      | Return final_output =>
          Return {| output_info := final_output;
                    tripwire_triggered := negb allowed |}
      end
  end.

(** A run of an agent whose [input_guardrails] is [[topic_guardrail]], as
    the agents SDK performs it: the guardrail is given the run's input; an
    error it raises leaves the run; a result with [tripwire_triggered] set
    makes the run raise [InputGuardrailTripwireTriggered]; otherwise the
    run yields the agent's own answer. *)
Definition guarded_run (agent : Agent) (input : string) : outcome string :=
  match topic_guardrail agent (InputStr input) with
  | Raise e => Raise e
  | Return g =>
      if tripwire_triggered g then Raise InputGuardrailTripwireTriggered
      else Runner_run agent input
  end.

End Guardrail.

(** ** The handler's effects *)

Record Message : Type := {
  author_id : string;
  content : string
}.

(** What a handler can touch: the session dictionary, the messages handed to
    the transport (oldest first) and the runs requested from the SDK. *)
Record World : Type := mkWorld {
  user_sessions : gmap string string;
  sent : list string;
  runs : list (Agent * string)
}.

(** A computation reads and updates the world and either returns or raises. *)
Definition M (A : Type) : Type := World -> outcome A * World.

Definition ret {A} (a : A) : M A := fun w => (Return a, w).

Definition raise {A} (e : exn) : M A := fun w => (Raise e, w).

Definition bind {A B} (m : M A) (k : A -> M B) : M B :=
  fun w =>
    match m w with
    | (Return a, w') => k a w'
    | (Raise e, w') => (Raise e, w')
    end.

Notation "x <- m ;; k" := (bind m (fun x => k))
  (at level 100, m at next level, right associativity).
Notation "m ;;; k" := (bind m (fun _ => k))
  (at level 100, right associativity).

(** [try: body  except ...: handler] where [handler] re-raises what no
    clause matches. *)
Definition try_except {A} (body : M A) (handler : exn -> M A) : M A :=
  fun w =>
    match body w with
    | (Return a, w') => (Return a, w')
    | (Raise e, w') => handler e w'
    end.

(** [try: body  finally: cleanup] *)
Definition try_finally {A} (body : M A) (cleanup : M unit) : M A :=
  fun w =>
    match body w with
    | (r, w') =>
        match cleanup w' with
        | (Return _, w'') => (r, w'')
        | (Raise e, w'') => (Raise e, w'')
        end
    end.

(** [await cl.Message(content=text).send()] *)
Definition send (text : string) : M unit :=
  fun w => (Return tt, {| user_sessions := user_sessions w;
                          sent := sent w ++ [text];
                          runs := runs w |}).

(** [user_id in user_sessions] *)
Definition sessions_contains (user_id : string) : M bool :=
  fun w => (Return (bool_decide (is_Some (user_sessions w !! user_id))), w).

(** [user_sessions[user_id] = domain] *)
Definition sessions_setitem (user_id domain : string) : M unit :=
  fun w => (Return tt, {| user_sessions := <[user_id := domain]> (user_sessions w);
                          sent := sent w;
                          runs := runs w |}).

(** [user_sessions[user_id]], a [KeyError] when the key is absent. *)
Definition sessions_getitem (user_id : string) : M string :=
  fun w =>
    match user_sessions w !! user_id with
    | Some domain => (Return domain, w)
    | None => (Raise (Exception ("'" ++ user_id ++ "'")), w)
    end.

(** [user_sessions.pop(user_id, None)] *)
Definition sessions_pop (user_id : string) : M unit :=
  fun w => (Return tt, {| user_sessions := delete user_id (user_sessions w);
                          sent := sent w;
                          runs := runs w |}).

(** ** The message handler *)

Definition rejection_message : string :=
  "Sorry, I can only help with Web Development, Marketing, or Content Writing.".

Definition reprompt_message : string :=
  "Please choose one: Web Development, Marketing, or Content Writing.".

Definition processing_message : string := "⏳ Processing your request...".

Definition guard_prefix : string := "Guardrail:".

Section Router.

(** [Runner.run_sync(manager, prompt, run_config=...)]: the text of the
    run's final output, or the exception that leaves the run. *)
Variable Runner_run_sync : Agent -> string -> outcome string.

Definition run_sync (agent : Agent) (prompt : string) : M string :=
  fun w => (Runner_run_sync agent prompt,
            {| user_sessions := user_sessions w;
               sent := sent w;
               runs := runs w ++ [(agent, prompt)] |}).

Definition main (message : Message) : M unit :=
  let user_id := author_id message in
  let text_lower := Py.lower (Py.strip (content message)) in
  known <- sessions_contains user_id ;;
  if negb known then
    (* Domain selection *)
    if Py.str_in "web" text_lower || Py.str_in "development" text_lower then
      sessions_setitem user_id "WebDeveloper" ;;;
      send "Great! You chose Web Development."
    else if Py.str_in "marketing" text_lower then
      sessions_setitem user_id "DigitalMarketer" ;;;
      send "Great! You chose Marketing."
    else if Py.str_in "content" text_lower || Py.str_in "writing" text_lower then
      sessions_setitem user_id "ContentWriter" ;;;
      send "Great! You chose Content Writing."
    else
      send reprompt_message
  else
    (* Handle request with guardrail *)
    send processing_message ;;;
    try_finally
      (try_except
         (routed <- sessions_getitem user_id ;;
          let prompt := "Assign to " ++ routed ++ ": " ++ content message in
          output_text <- run_sync manager prompt ;;
          if Py.startswith output_text guard_prefix then
            send rejection_message
          else
            send output_text)
         (fun e =>
            match e with
            | InputGuardrailTripwireTriggered => send rejection_message
            | Exception msg => send ("Error: " ++ msg)
            | BaseException _ => raise e
            end))
      (sessions_pop user_id).

End Router.

(** ** Containment up to case, as the specification words it *)

(** [sub] matches the beginning of [s] when letters are compared without
    regard to case. *)
Fixpoint ci_prefix (sub s : string) : bool :=
  match sub, s with
  | EmptyString, _ => true
  | String _ _, EmptyString => false
  | String a sub', String b s' =>
      Ascii.eqb (Py.lower_char a) (Py.lower_char b) && ci_prefix sub' s'
  end.

(** [sub] occurs in [s] at some offset, letter by letter without regard to
    case. *)
Fixpoint ci_occurs (s sub : string) : bool :=
  ci_prefix sub s ||
  match s with
  | EmptyString => false
  | String _ s' => ci_occurs s' sub
  end.

(** [s] with each Kelvin sign written as the letter it stands for and each
    dotted capital I as an "i" under a combining dot; nothing else changes. *)
Fixpoint signs_as_letters (s : string) : string :=
  match s with
  | EmptyString => EmptyString
  | String c1 s1 =>
      match s1 with
      | EmptyString => s
      | String c2 s2 =>
          if Py.is_dotted_capital_i c1 c2 then
            String "i" (String "204" (String "135" (signs_as_letters s2)))
          else
            match s2 with
            | EmptyString => String c1 (signs_as_letters s1)
            | String c3 s3 =>
                if Py.is_kelvin_sign c1 c2 c3 then String "k" (signs_as_letters s3)
                else String c1 (signs_as_letters s1)
            end
      end
  end.

(** [text] contains [sub] as a case-insensitive substring. *)
Definition contains_ci (text sub : string) : bool :=
  ci_occurs (signs_as_letters text) sub.

(** The bytes of [s] folded one by one. *)
Fixpoint lower_bytes (s : string) : string :=
  match s with
  | EmptyString => EmptyString
  | String c s' => String (Py.lower_char c) (lower_bytes s')
  end.

(** [s] begins with the bytes of a dotted capital I or of a Kelvin sign. *)
Definition starts_sign (s : string) : bool :=
  match s with
  | String c1 (String c2 s2) =>
      Py.is_dotted_capital_i c1 c2
      || match s2 with
         | String c3 _ => Py.is_kelvin_sign c1 c2 c3
         | EmptyString => false
         end
  | _ => false
  end.

(** [c] is an ASCII character. *)
Definition is_ascii (c : ascii) : bool := (N_of_ascii c <? 128)%N.

(** Every character of [s] is ASCII. *)
Fixpoint ascii_only (s : string) : bool :=
  match s with
  | EmptyString => true
  | String c s' => is_ascii c && ascii_only s'
  end.

(** No character of [s] is ASCII. *)
Fixpoint no_ascii (s : string) : bool :=
  match s with
  | EmptyString => true
  | String c s' => negb (is_ascii c) && no_ascii s'
  end.

(** No character of [s] is white space. *)
Fixpoint no_space (s : string) : bool :=
  match s with
  | EmptyString => true
  | String c s' => negb (Py.isspace c) && no_space s'
  end.

(** Every keyword of the registry, over all domains. *)
Definition all_keywords : list string := concat domain_keywords_values.

(** The five words the selection step looks for. *)
Definition selection_keywords : list string :=
  ["web"; "development"; "marketing"; "content"; "writing"].

(** [text] contains no configured keyword of any domain. *)
Definition no_configured_keyword (text : string) : Prop :=
  forall domain kws kw,
    In (domain, kws) domain_keywords -> In kw kws -> contains_ci text kw = false.

(** [kw] is a keyword of some domain of the registry. *)
Definition configured_keyword (kw : string) : Prop :=
  exists domain kws, In (domain, kws) domain_keywords /\ In kw kws.

(** The prompt [f"Assign to {routed}: {message.content}"]. *)
Definition prompt_for (routed : string) (message : Message) : string :=
  "Assign to " ++ routed ++ ": " ++ content message.

(** The four replies of the selection step. *)
Definition selection_replies : list string :=
  [ "Great! You chose Web Development.";
    "Great! You chose Marketing.";
    "Great! You chose Content Writing.";
    reprompt_message ].

(** The state of the world once a guarded request has been handled: the
    run is logged, [processing_message] and [reply] are sent, the user's
    entry is gone. *)
Definition after_request (w : World) (message : Message) (routed reply : string)
  : World :=
  {| user_sessions := delete (author_id message) (user_sessions w);
     sent := sent w ++ [processing_message; reply];
     runs := runs w ++ [(manager, prompt_for routed message)] |}.

(** The state of the world once a domain has been chosen. *)
Definition after_selection (w : World) (message : Message) (domain reply : string)
  : World :=
  {| user_sessions := <[author_id message := domain]> (user_sessions w);
     sent := sent w ++ [reply];
     runs := runs w |}.

(** [sub] agrees with [s], up to case, as far as [s] goes. *)
Fixpoint ci_agrees (sub s : string) : bool :=
  match sub, s with
  | EmptyString, _ => true
  | String _ _, EmptyString => true
  | String a sub', String b s' =>
      Ascii.eqb (Py.lower_char a) (Py.lower_char b) && ci_agrees sub' s'
  end.

(** No occurrence of [sub], up to case, can begin inside [p], whatever
    follows [p]. *)
Fixpoint no_start_in (p sub : string) : bool :=
  match p with
  | EmptyString => true
  | String _ p' => negb (ci_agrees sub p) && no_start_in p' sub
  end.

(** ** Start-up, the greeting and the life of the process *)

(** The module's first statements: [os.getenv("GEMINI_API_KEY")] read in the
    environment that [load_dotenv()] has completed, and the [ValueError]
    raised when [not gemini_api_key] holds. *)
Definition load_api_key (environ : gmap string string) : outcome string :=
  let gemini_api_key := environ !! "GEMINI_API_KEY" in
  match gemini_api_key with
  | None =>
      Raise (Exception "GEMINI_API_KEY is not set. Please define it in your .env file.")
  | Some key =>
      if String.eqb key ""
      then Raise (Exception "GEMINI_API_KEY is not set. Please define it in your .env file.")
      else Return key
  end.

(** The handler of [on_chat_start]. *)
Definition start : M unit :=
  send "👋 Hello! Choose: Web Development, Marketing, or Content Writing.".

(** The world when the module has been loaded: [user_sessions = {}]. *)
Definition initial_world : World :=
  {| user_sessions := ∅; sent := []; runs := [] |}.

(** The keys of [domain_keywords]. *)
Definition domain_names : list string := map fst domain_keywords.

(** One event of the transport: a chat starts, or a message arrives and is
    handled against some behaviour of the inference service. *)
Inductive step : World -> World -> Prop :=
| step_start w : step w (start w).2
| step_message Runner_run_sync message w :
    step w (main Runner_run_sync message w).2.

(** The worlds the process can be in. *)
Inductive reachable : World -> Prop :=
| reachable_initial : reachable initial_world
| reachable_step w w' : reachable w -> step w w' -> reachable w'.

(** Every stored domain is a key of the registry. *)
Definition sessions_valid (w : World) : Prop :=
  forall user_id domain,
    user_sessions w !! user_id = Some domain -> In domain domain_names.

(** Every requested run is a run of the manager on a prompt that assigns
    some text to a key of the registry. *)
Definition runs_valid (w : World) : Prop :=
  forall agent prompt,
    In (agent, prompt) (runs w) ->
    agent = manager
    /\ exists domain text,
         In domain domain_names /\ prompt = "Assign to " ++ domain ++ ": " ++ text.

(** ** Facts on the string primitives *)

Section StringFacts.

Ltac by_cases_on c :=
  destruct c as [[] [] [] [] [] [] [] []]; vm_compute; reflexivity.

Lemma lower_char_idem c : Py.lower_char (Py.lower_char c) = Py.lower_char c.
Proof. by_cases_on c. Qed.

Lemma isspace_lower_char c : Py.isspace (Py.lower_char c) = Py.isspace c.
Proof. by_cases_on c. Qed.

Lemma is_ascii_lower_char c : is_ascii (Py.lower_char c) = is_ascii c.
Proof. by_cases_on c. Qed.

Lemma isspace_is_ascii c : Py.isspace c = true -> is_ascii c = true.
Proof. destruct c as [[] [] [] [] [] [] [] []]; vm_compute; congruence. Qed.

Lemma string_app_cons c s t : String c s ++ t = String c (s ++ t).
Proof. reflexivity. Qed.

(** A character that is white space differs, even up to case, from one
    that is not. *)
Lemma space_mismatch a c :
  Py.isspace a = false -> Py.isspace c = true ->
  Ascii.eqb (Py.lower_char a) (Py.lower_char c) = false.
Proof.
  intros Ha Hc. apply Ascii.eqb_neq. intros Heq.
  rewrite <- (isspace_lower_char a), Heq, isspace_lower_char in Ha.
  congruence.
Qed.

(** So does an ASCII character from one outside ASCII. *)
Lemma ascii_mismatch a r :
  is_ascii a = true -> is_ascii r = false ->
  Ascii.eqb (Py.lower_char a) (Py.lower_char r) = false.
Proof.
  intros Ha Hr. apply Ascii.eqb_neq. intros Heq.
  rewrite <- (is_ascii_lower_char a), Heq, is_ascii_lower_char in Ha.
  congruence.
Qed.

(** *** Folding byte by byte and the search letter by letter *)

(** The source's prefix test on texts folded byte by byte is the
    case-insensitive prefix test on the texts themselves. *)
Lemma prefix_lower sub s :
  String.prefix (lower_bytes sub) (lower_bytes s) = ci_prefix sub s.
Proof.
  revert sub; induction s as [|b s IH]; intros [|a sub]; simpl; try reflexivity.
  destruct (ascii_dec (Py.lower_char a) (Py.lower_char b)) as [Heq|Hne].
  - rewrite Heq, Ascii.eqb_refl. apply IH.
  - apply Ascii.eqb_neq in Hne. rewrite Hne. reflexivity.
Qed.

Lemma str_in_lower sub s :
  Py.str_in (lower_bytes sub) (lower_bytes s) = ci_occurs s sub.
Proof.
  induction s as [|b s IH].
  - simpl. rewrite <- (prefix_lower sub EmptyString). reflexivity.
  - cbn [Py.str_in lower_bytes ci_occurs]. rewrite <- IH.
    change (String (Py.lower_char b) (lower_bytes s)) with (lower_bytes (String b s)).
    rewrite prefix_lower. reflexivity.
Qed.

Lemma str_in_lower_keyword kw s :
  lower_bytes kw = kw -> Py.str_in kw (lower_bytes s) = ci_occurs s kw.
Proof. intros Hkw. rewrite <- Hkw at 1. apply str_in_lower. Qed.

Lemma ci_prefix_space_head a sub c s :
  Py.isspace a = false -> Py.isspace c = true ->
  ci_prefix (String a sub) (String c s) = false.
Proof. intros Ha Hc. simpl. now rewrite (space_mismatch a c Ha Hc). Qed.

Lemma ci_occurs_lstrip s kw :
  kw <> EmptyString -> no_space kw = true ->
  ci_occurs (Py.lstrip s) kw = ci_occurs s kw.
Proof.
  intros Hne Hns. destruct kw as [|a kw]; [congruence|].
  simpl in Hns. apply andb_prop in Hns as [Ha _].
  apply negb_true_iff in Ha.
  induction s as [|c s IH]; [reflexivity|].
  cbn [Py.lstrip]. destruct (Py.isspace c) eqn:Hc; [|reflexivity].
  rewrite IH. cbn [ci_occurs].
  now rewrite (ci_prefix_space_head a kw c s Ha Hc).
Qed.

Lemma rstrip_cons c s :
  (Py.isspace c = true /\ Py.rstrip s = EmptyString
   /\ Py.rstrip (String c s) = EmptyString)
  \/ Py.rstrip (String c s) = String c (Py.rstrip s).
Proof.
  cbn [Py.rstrip]. destruct (Py.rstrip s) eqn:Hr; [|now right].
  destruct (Py.isspace c); [left|right]; auto.
Qed.

Lemma ci_prefix_rstrip s : forall kw,
  no_space kw = true -> ci_prefix kw (Py.rstrip s) = ci_prefix kw s.
Proof.
  induction s as [|c s IH]; intros kw Hns; [reflexivity|].
  destruct kw as [|a kw]; [now destruct (Py.rstrip (String c s))|].
  simpl in Hns. apply andb_prop in Hns as [Ha Hns].
  apply negb_true_iff in Ha.
  destruct (rstrip_cons c s) as [(Hc & _ & ->) | ->].
  - now rewrite ci_prefix_space_head.
  - cbn [ci_prefix]. now rewrite IH.
Qed.

Lemma ci_occurs_rstrip s kw :
  kw <> EmptyString -> no_space kw = true ->
  ci_occurs (Py.rstrip s) kw = ci_occurs s kw.
Proof.
  intros Hne Hns. induction s as [|c s IH]; [reflexivity|].
  destruct (rstrip_cons c s) as [(Hc & Hs & Hcs)|Hcs].
  - rewrite Hcs. cbn [ci_occurs]. rewrite <- IH, Hs.
    destruct kw as [|a kw]; [congruence|].
    simpl in Hns. apply andb_prop in Hns as [Ha _].
    apply negb_true_iff in Ha.
    now rewrite ci_prefix_space_head.
  - rewrite Hcs. cbn [ci_occurs]. rewrite IH, <- Hcs.
    now rewrite (ci_prefix_rstrip (String c s) kw Hns).
Qed.

Lemma ci_occurs_strip s kw :
  kw <> EmptyString -> no_space kw = true ->
  ci_occurs (Py.strip s) kw = ci_occurs s kw.
Proof.
  intros Hne Hns. unfold Py.strip.
  now rewrite ci_occurs_rstrip, ci_occurs_lstrip.
Qed.

(** *** The two signs *)

Lemma starts_sign_cases s :
  starts_sign s = true ->
  (exists t, s = String "226" (String "132" (String "170" t)))
  \/ (exists t, s = String "196" (String "176" t)).
Proof.
  destruct s as [|c1 [|c2 s2]]; try discriminate. cbn [starts_sign].
  intros H. apply orb_prop in H as [H|H].
  - right. unfold Py.is_dotted_capital_i in H. apply andb_prop in H as [H1 H2].
    apply Ascii.eqb_eq in H1, H2. subst. now exists s2.
  - left. destruct s2 as [|c3 s3]; [discriminate|].
    unfold Py.is_kelvin_sign in H. apply andb_prop in H as [H H3].
    apply andb_prop in H as [H1 H2].
    apply Ascii.eqb_eq in H1, H2, H3. subst. now exists s3.
Qed.

Lemma starts_sign_split c s :
  starts_sign (String c s) = false ->
  match s with
  | String c2 s2 =>
      Py.is_dotted_capital_i c c2 = false
      /\ match s2 with
         | String c3 _ => Py.is_kelvin_sign c c2 c3 = false
         | EmptyString => True
         end
  | EmptyString => True
  end.
Proof.
  destruct s as [|c2 s2]; [trivial|]. cbn [starts_sign]. intros H.
  apply orb_false_elim in H as [H1 H2]. split; [exact H1|].
  destruct s2; [trivial|exact H2].
Qed.

Lemma signs_plain c s :
  starts_sign (String c s) = false ->
  signs_as_letters (String c s) = String c (signs_as_letters s).
Proof.
  intros H. apply starts_sign_split in H.
  destruct s as [|c2 [|c3 s3]]; [reflexivity| |]; destruct H as [H1 H2];
    cbn [signs_as_letters]; rewrite H1; [reflexivity|].
  rewrite H2. reflexivity.
Qed.

Lemma lower_plain c s :
  starts_sign (String c s) = false ->
  Py.lower (String c s) = String (Py.lower_char c) (Py.lower s).
Proof.
  intros H. apply starts_sign_split in H.
  destruct s as [|c2 [|c3 s3]]; [reflexivity| |]; destruct H as [H1 H2];
    cbn [Py.lower]; rewrite H1; [reflexivity|].
  rewrite H2. reflexivity.
Qed.

Lemma signs_kelvin t :
  signs_as_letters (String "226" (String "132" (String "170" t)))
  = String "k" (signs_as_letters t).
Proof. reflexivity. Qed.

Lemma signs_dotted_i t :
  signs_as_letters (String "196" (String "176" t))
  = String "i" (String "204" (String "135" (signs_as_letters t))).
Proof. reflexivity. Qed.

(** Induction along the characters that [lower] tells apart. *)
Lemma sign_ind (P : string -> Prop) :
  P EmptyString ->
  (forall t, P t -> P (String "226" (String "132" (String "170" t)))) ->
  (forall t, P t -> P (String "196" (String "176" t))) ->
  (forall c t, starts_sign (String c t) = false -> P t -> P (String c t)) ->
  forall s, P s.
Proof.
  intros Hnil Hk Hi Hplain.
  assert (forall n s, String.length s <= n -> P s) as Hn.
  { induction n as [|n IH]; intros s Hlen.
    - destruct s; [exact Hnil|simpl in Hlen; lia].
    - destruct s as [|c t]; [exact Hnil|].
      destruct (starts_sign (String c t)) eqn:Hs.
      + apply starts_sign_cases in Hs as [[u Hu]|[u Hu]];
          injection Hu as -> ->; simpl in Hlen.
        * apply Hk, IH. lia.
        * apply Hi, IH. lia.
      + apply Hplain; [exact Hs|]. apply IH. simpl in Hlen. lia. }
  intros s. apply (Hn (String.length s)). lia.
Qed.

(** What [lower] computes: the signs written as letters, then every byte
    folded. *)
Lemma lower_signs s : Py.lower s = lower_bytes (signs_as_letters s).
Proof.
  induction s as [|t IH|t IH|c t Hs IH] using sign_ind.
  - reflexivity.
  - rewrite signs_kelvin. cbn [lower_bytes]. rewrite <- IH. reflexivity.
  - rewrite signs_dotted_i. cbn [lower_bytes]. rewrite <- IH. reflexivity.
  - rewrite (lower_plain c t Hs), (signs_plain c t Hs), IH. reflexivity.
Qed.

Lemma signs_nil s : signs_as_letters s = EmptyString -> s = EmptyString.
Proof.
  induction s as [|t _|t _|c t Hs _] using sign_ind; try discriminate; [reflexivity|].
  rewrite (signs_plain c t Hs). discriminate.
Qed.

Lemma starts_sign_head c s :
  starts_sign (String c s) = true -> Py.isspace c = false /\ is_ascii c = false.
Proof.
  intros H. apply starts_sign_cases in H as [[t H]|[t H]];
    injection H as -> _; split; reflexivity.
Qed.

Lemma signs_space_head c s :
  Py.isspace c = true ->
  signs_as_letters (String c s) = String c (signs_as_letters s).
Proof.
  intros Hc. apply signs_plain.
  destruct (starts_sign (String c s)) eqn:Hs; [|reflexivity].
  apply starts_sign_head in Hs as [Hs _]. congruence.
Qed.

Lemma signs_ascii_head c s :
  is_ascii c = true ->
  signs_as_letters (String c s) = String c (signs_as_letters s).
Proof.
  intros Hc. apply signs_plain.
  destruct (starts_sign (String c s)) eqn:Hs; [|reflexivity].
  apply starts_sign_head in Hs as [_ Hs]. congruence.
Qed.

Lemma signs_lstrip s : signs_as_letters (Py.lstrip s) = Py.lstrip (signs_as_letters s).
Proof.
  induction s as [|c s IH]; [reflexivity|].
  cbn [Py.lstrip]. destruct (Py.isspace c) eqn:Hc.
  - rewrite (signs_space_head c s Hc). cbn [Py.lstrip]. rewrite Hc. exact IH.
  - destruct (starts_sign (String c s)) eqn:Hs.
    + apply starts_sign_cases in Hs as [[t ->]|[t ->]]; reflexivity.
    + rewrite (signs_plain c s Hs). cbn [Py.lstrip]. rewrite Hc. reflexivity.
Qed.

Lemma rstrip_nonspace c s :
  Py.isspace c = false -> Py.rstrip (String c s) = String c (Py.rstrip s).
Proof. intros Hc. cbn [Py.rstrip]. rewrite Hc. now destruct (Py.rstrip s). Qed.

Lemma rstrip_head s a r :
  Py.rstrip s = String a r -> exists s', s = String a s' /\ r = Py.rstrip s'.
Proof.
  destruct s as [|c s']; [discriminate|]. cbn [Py.rstrip].
  destruct (Py.rstrip s') as [|b r'] eqn:Hr.
  - destruct (Py.isspace c); [discriminate|]. intros [= <- <-]. now exists s'.
  - intros [= <- <-]. now exists s'.
Qed.

Lemma starts_sign_rstrip c s :
  starts_sign (String c (Py.rstrip s)) = true -> starts_sign (String c s) = true.
Proof.
  intros H. apply starts_sign_cases in H as [[t H]|[t H]]; injection H as -> Hr.
  - apply rstrip_head in Hr as (s1 & -> & Hr). symmetry in Hr.
    apply rstrip_head in Hr as (s2 & -> & _). reflexivity.
  - apply rstrip_head in Hr as (s1 & -> & _). reflexivity.
Qed.

Lemma signs_rstrip s : signs_as_letters (Py.rstrip s) = Py.rstrip (signs_as_letters s).
Proof.
  induction s as [|t IH|t IH|c t Hs IH] using sign_ind.
  - reflexivity.
  - rewrite signs_kelvin, !rstrip_nonspace by reflexivity.
    now rewrite signs_kelvin, IH.
  - rewrite signs_dotted_i, !rstrip_nonspace by reflexivity.
    now rewrite signs_dotted_i, IH.
  - rewrite (signs_plain c t Hs).
    destruct (rstrip_cons c t) as [(Hc & Ht & Hct)|Hct]; rewrite Hct.
    + cbn [Py.rstrip]. rewrite <- IH, Ht, Hc. reflexivity.
    + assert (starts_sign (String c (Py.rstrip t)) = false) as Hs'.
      { destruct (starts_sign (String c (Py.rstrip t))) eqn:E; [|reflexivity].
        apply starts_sign_rstrip in E. congruence. }
      rewrite (signs_plain _ _ Hs'), IH.
      destruct (rstrip_cons c (signs_as_letters t)) as [(Hc & Hr & _) | ->];
        [|reflexivity].
      rewrite <- IH in Hr. apply signs_nil in Hr.
      cbn [Py.rstrip] in Hct. rewrite Hr, Hc in Hct. discriminate.
Qed.

Lemma signs_strip s : signs_as_letters (Py.strip s) = Py.strip (signs_as_letters s).
Proof. unfold Py.strip. now rewrite signs_rstrip, signs_lstrip. Qed.

(** *** The tests of the source, read on the text *)

(** [kw in text.lower()], for a keyword written in lower case. *)
Lemma str_in_lower_text kw text :
  lower_bytes kw = kw -> Py.str_in kw (Py.lower text) = contains_ci text kw.
Proof. intros Hkw. rewrite lower_signs. now apply str_in_lower_keyword. Qed.

(** [kw in message.content.strip().lower()], for a selection keyword. *)
Lemma selection_test kw s :
  In kw selection_keywords ->
  Py.str_in kw (Py.lower (Py.strip s)) = contains_ci s kw.
Proof.
  intros Hin.
  assert (lower_bytes kw = kw /\ kw <> EmptyString /\ no_space kw = true)
    as (Hl & Hne & Hns).
  { unfold selection_keywords in Hin. simpl in Hin.
    repeat (destruct Hin as [<-|Hin]; [split; [|split]; [reflexivity|discriminate|reflexivity]|]).
    contradiction. }
  rewrite (str_in_lower_text kw _ Hl). unfold contains_ci.
  rewrite signs_strip. now apply ci_occurs_strip.
Qed.

Lemma all_keywords_lower kw : In kw all_keywords -> lower_bytes kw = kw.
Proof.
  intros Hin. vm_compute in Hin.
  repeat (destruct Hin as [<-|Hin]; [reflexivity|]). contradiction.
Qed.

Lemma all_keywords_ascii kw :
  In kw all_keywords -> ascii_only kw = true /\ kw <> EmptyString.
Proof.
  intros Hin. vm_compute in Hin.
  repeat (destruct Hin as [<-|Hin]; [split; [reflexivity|discriminate]|]). contradiction.
Qed.

(** The value of [allowed], read on the text itself. *)
Lemma keyword_allowed_spec text :
  keyword_allowed text = existsb (contains_ci text) all_keywords.
Proof.
  unfold keyword_allowed, Py.any, all_keywords.
  assert (forall kws, (forall kw, In kw kws -> lower_bytes kw = kw) ->
            existsb (fun kw => Py.str_in kw (Py.lower text)) kws
            = existsb (contains_ci text) kws) as Hinner.
  { induction kws as [|kw kws IH]; intros Hl; [reflexivity|].
    simpl. rewrite str_in_lower_text by (apply Hl; now left).
    rewrite IH; [reflexivity|]. intros k Hk. apply Hl. now right. }
  assert (forall kw, In kw (concat domain_keywords_values) -> lower_bytes kw = kw) as Hall
    by apply all_keywords_lower.
  revert Hall. generalize domain_keywords_values as vals.
  induction vals as [|kws vals IH]; intros Hall; [reflexivity|].
  cbn [existsb concat]. rewrite existsb_app.
  rewrite Hinner, IH; [reflexivity| |].
  - intros kw Hkw. apply Hall. cbn [concat]. apply in_or_app. now right.
  - intros kw Hkw. apply Hall. cbn [concat]. apply in_or_app. now left.
Qed.

Lemma no_configured_keyword_iff text :
  no_configured_keyword text <-> existsb (contains_ci text) all_keywords = false.
Proof.
  unfold no_configured_keyword, all_keywords, domain_keywords_values. split.
  - intros H. apply not_true_is_false. intros Hex.
    apply existsb_exists in Hex as (kw & Hin & Hkw).
    apply in_concat in Hin as (kws & Hkws & Hin).
    apply in_map_iff in Hkws as ([domain kws'] & Heq & Hd). simpl in Heq. subst kws'.
    rewrite (H domain kws kw Hd Hin) in Hkw. discriminate.
  - intros H domain kws kw Hd Hin.
    apply not_true_is_false. intros Hkw.
    assert (existsb (contains_ci text) (concat (map snd domain_keywords)) = true) as Hex.
    { apply existsb_exists. exists kw. split; [|assumption].
      apply in_concat. exists kws. split; [|assumption].
      apply in_map_iff. exists (domain, kws). now split. }
    congruence.
Qed.

End StringFacts.

(** ** The handler, branch by branch *)

Section RouterFacts.

Variable Runner_run_sync : Agent -> string -> outcome string.

Lemma app_two {A} (l : list A) x y : ((l ++ [x]) ++ [y] = l ++ [x; y])%list.
Proof. now rewrite <- app_assoc. Qed.

(** The selection step, with its tests read on the message text. *)
Lemma main_selection message w :
  user_sessions w !! author_id message = None ->
  main Runner_run_sync message w =
    (Return tt,
     let text := content message in
     if contains_ci text "web" || contains_ci text "development" then
       after_selection w message "WebDeveloper" "Great! You chose Web Development."
     else if contains_ci text "marketing" then
       after_selection w message "DigitalMarketer" "Great! You chose Marketing."
     else if contains_ci text "content" || contains_ci text "writing" then
       after_selection w message "ContentWriter" "Great! You chose Content Writing."
     else
       {| user_sessions := user_sessions w;
          sent := sent w ++ [reprompt_message];
          runs := runs w |}).
Proof.
  intros Hnone. unfold main, bind at 1, sessions_contains.
  rewrite Hnone. rewrite bool_decide_eq_false_2 by (intros [? ?]; discriminate).
  cbn [negb].
  rewrite !selection_test by (unfold selection_keywords; simpl; tauto).
  cbv zeta.
  destruct (contains_ci (content message) "web" || contains_ci (content message) "development");
    [reflexivity|].
  destruct (contains_ci (content message) "marketing"); [reflexivity|].
  destruct (contains_ci (content message) "content" || contains_ci (content message) "writing");
    reflexivity.
Qed.

(** A guarded request: one run of the manager, one reply, the cleanup. *)
Lemma main_guarded message w routed :
  user_sessions w !! author_id message = Some routed ->
  main Runner_run_sync message w =
    match Runner_run_sync manager (prompt_for routed message) with
    | Return output_text =>
        (Return tt,
         after_request w message routed
           (if Py.startswith output_text guard_prefix
            then rejection_message else output_text))
    | Raise InputGuardrailTripwireTriggered =>
        (Return tt, after_request w message routed rejection_message)
    | Raise (Exception msg) =>
        (Return tt, after_request w message routed ("Error: " ++ msg))
    | Raise (BaseException msg) =>
        (Raise (BaseException msg),
         {| user_sessions := delete (author_id message) (user_sessions w);
            sent := sent w ++ [processing_message];
            runs := runs w ++ [(manager, prompt_for routed message)] |})
    end.
Proof.
  intros Hsome. unfold main, bind at 1, sessions_contains.
  rewrite Hsome. rewrite bool_decide_eq_true_2 by eauto.
  cbn [negb]. unfold bind at 1, send at 1, try_finally, try_except.
  unfold bind at 1, sessions_getitem. cbn [user_sessions]. rewrite Hsome.
  unfold bind, run_sync. fold (prompt_for routed message).
  destruct (Runner_run_sync manager (prompt_for routed message)) as [out|[| |]];
    cbn -[Py.startswith guard_prefix rejection_message processing_message prompt_for];
    unfold after_request.
  - destruct (Py.startswith out guard_prefix);
      cbn -[rejection_message processing_message prompt_for];
      now rewrite app_two.
  - now rewrite app_two.
  - now rewrite app_two.
  - reflexivity.
Qed.

End RouterFacts.

(** ** Properties of the guardrail *)

Lemma configured_keyword_in kw : configured_keyword kw <-> In kw all_keywords.
Proof.
  unfold configured_keyword, all_keywords, domain_keywords_values. split.
  - intros (domain & kws & Hd & Hin). apply in_concat. exists kws. split; [|assumption].
    apply in_map_iff. exists (domain, kws). now split.
  - intros Hin. apply in_concat in Hin as (kws & Hkws & Hin).
    apply in_map_iff in Hkws as ([domain kws'] & Heq & Hd). simpl in Heq. subst kws'.
    now exists domain, kws.
Qed.

(** C1.  A request text that contains no configured keyword of any domain,
    compared without regard to case, trips the wire: whatever rationale the
    classification run returns, the guardrail's result carries that rationale
    and [tripwire_triggered = true], that is [allowed = false].  The flag is
    the negation of the keyword scan over the whole registry and nothing
    else. *)
Theorem guardrail_rejects_keyword_free_text
  (Runner_run : Agent -> string -> outcome string)
  (agent : Agent) (input : GuardrailInput) (text rationale : string)
  (Htext : input_text input = Return text)
  (Hnone : no_configured_keyword text)
  (Hrun : Runner_run guardrail_agent text = Return rationale) :
  topic_guardrail Runner_run agent input
  = Return {| output_info := rationale; tripwire_triggered := true |}
  /\ keyword_allowed text = false.
Proof.
  apply no_configured_keyword_iff in Hnone.
  rewrite <- keyword_allowed_spec in Hnone.
  unfold topic_guardrail. rewrite Htext, Hrun, Hnone. split; reflexivity.
Qed.

Lemma guardrail_rejects_keyword_free_text_witness :
  no_configured_keyword "what's the weather today"
  /\ topic_guardrail (fun _ _ => Return "in domain") manager
       (InputStr "what's the weather today")
     = Return {| output_info := "in domain"; tripwire_triggered := true |}.
Proof.
  assert (no_configured_keyword "what's the weather today") as Hnone
    by (apply no_configured_keyword_iff; vm_compute; reflexivity).
  split; [exact Hnone|].
  apply (guardrail_rejects_keyword_free_text (fun _ _ => Return "in domain") manager
           (InputStr "what's the weather today") "what's the weather today"
           "in domain" eq_refl Hnone eq_refl).
Defined.

(** A keyword spelt with the Kelvin sign is a keyword: [lower] turns the
    sign into "k", and the text is admitted. *)
Example kelvin_sign_is_a_letter :
  Py.lower "fix my bacKend" = "fix my backend"
  /\ contains_ci "fix my bacKend" "backend" = true
  /\ keyword_allowed "fix my bacKend" = true
  /\ contains_ci "MARKETING" "marketing" = true.
Proof. repeat split. Qed.

(** A dotted capital I is not an "i": the combining dot that [lower] puts
    after the letter breaks the keyword. *)
Example dotted_capital_i_is_not_i :
  Py.lower "wrİte" = "wri̇te"
  /\ contains_ci "wrİte" "write" = false.
Proof. repeat split. Qed.

(** C10.  The scan is a plain substring search in the lowered text: a text
    that contains a configured keyword anywhere, be it inside a longer word
    such as "ad" in "shadow" or "post" in "postpone", is admitted
    ([tripwire_triggered = false], that is [allowed = true]). *)
Theorem keyword_inside_word_is_admitted
  (Runner_run : Agent -> string -> outcome string)
  (agent : Agent) (text kw rationale : string)
  (Hkw : configured_keyword kw)
  (Hin : contains_ci text kw = true)
  (Hrun : Runner_run guardrail_agent text = Return rationale) :
  topic_guardrail Runner_run agent (InputStr text)
  = Return {| output_info := rationale; tripwire_triggered := false |}
  /\ keyword_allowed text = true.
Proof.
  assert (keyword_allowed text = true) as Hallowed.
  { rewrite keyword_allowed_spec. apply existsb_exists. exists kw.
    split; [now apply configured_keyword_in|assumption]. }
  unfold topic_guardrail. cbn [input_text]. rewrite Hrun, Hallowed.
  split; reflexivity.
Qed.

Lemma keyword_inside_word_is_admitted_witness :
  configured_keyword "ad"
  /\ contains_ci "a shadow on the wall" "ad" = true
  /\ topic_guardrail (fun _ _ => Return "off topic") manager
       (InputStr "a shadow on the wall")
     = Return {| output_info := "off topic"; tripwire_triggered := false |}.
Proof.
  assert (configured_keyword "ad") as Hkw
    by (apply configured_keyword_in; vm_compute; tauto).
  split; [exact Hkw|]. split; [reflexivity|].
  apply (keyword_inside_word_is_admitted (fun _ _ => Return "off topic") manager
           "a shadow on the wall" "ad" "off topic" Hkw eq_refl eq_refl).
Defined.

Example postpone_is_admitted : keyword_allowed "Let us POSTPONE the trip" = true.
Proof. reflexivity. Qed.

(** A failing classification call, seen call by call: the guardrail given a
    text raises what the call for that text raises, and the handler replies
    with the text of the error raised by the call for its prompt. *)
Lemma failed_classification_call
  (Runner_run : Agent -> string -> outcome string) (agent : Agent) (text : string) (e : exn) :
  Runner_run guardrail_agent text = Raise e ->
  topic_guardrail Runner_run agent (InputStr text) = Raise e.
Proof. intros H. unfold topic_guardrail. cbn [input_text]. now rewrite H. Qed.

Lemma failed_classification_reply
  (Runner_run : Agent -> string -> outcome string) message w routed (cause : string) :
  user_sessions w !! author_id message = Some routed ->
  Runner_run guardrail_agent (prompt_for routed message) = Raise (Exception cause) ->
  main (guarded_run Runner_run) message w
  = (Return tt, after_request w message routed ("Error: " ++ cause)).
Proof.
  intros Hsome Hcall. rewrite (main_guarded _ message w routed Hsome).
  unfold guarded_run. now rewrite (failed_classification_call _ _ _ _ Hcall).
Qed.

(** C4, as the source has it.  When the classification run raises, the
    guardrail raises the same error and yields no result at all; the run of
    the manager is left by that error, which the handler catches: it replies
    with the error text and clears the session. *)
Theorem failed_classification_propagates
  (Runner_run : Agent -> string -> outcome string) (cause : string)
  (Hfail : forall text, Runner_run guardrail_agent text = Raise (Exception cause)) :
  (forall agent text,
     topic_guardrail Runner_run agent (InputStr text) = Raise (Exception cause))
  /\ (forall agent input g, topic_guardrail Runner_run agent input <> Return g)
  /\ (forall message w routed,
        user_sessions w !! author_id message = Some routed ->
        main (guarded_run Runner_run) message w
        = (Return tt, after_request w message routed ("Error: " ++ cause))).
Proof.
  split; [|split].
  - intros agent text. apply failed_classification_call, Hfail.
  - intros agent input g. unfold topic_guardrail.
    destruct (input_text input) as [text|e]; [|discriminate].
    rewrite Hfail. discriminate.
  - intros message w routed Hsome.
    apply failed_classification_reply; [exact Hsome|apply Hfail].
Qed.

Lemma failed_classification_propagates_witness :
  let Runner_run : Agent -> string -> outcome string :=
    fun _ _ => Raise (Exception "timed out") in
  let message := {| author_id := "u"; content := "build me a website" |} in
  let w := {| user_sessions := {[ "u" := "WebDeveloper" ]}; sent := []; runs := [] |} in
  topic_guardrail Runner_run manager (InputStr "build me a website")
  = Raise (Exception "timed out")
  /\ main (guarded_run Runner_run) message w
     = (Return tt, after_request w message "WebDeveloper" "Error: timed out").
Proof.
  intros Runner_run message w.
  destruct (failed_classification_propagates Runner_run "timed out" (fun _ => eq_refl))
    as (Hg & _ & Hmain).
  split; [apply Hg|]. apply Hmain. reflexivity.
Defined.

(** C4, as the claim has it, fails: on a text that the keyword scan admits,
    a failing classification run leaves the guardrail without any result. *)
Lemma failed_classification_yields_no_result :
  keyword_allowed "build me a website" = true
  /\ forall g,
       topic_guardrail (fun _ _ => Raise (Exception "timed out")) manager
         (InputStr "build me a website") <> Return g.
Proof. split; [reflexivity|]. intros g. discriminate. Qed.

(** ** Properties of the router *)

(** C6.  With no session for the user and a text that contains none of the
    selection words, the handler replies with the re-prompt and nothing
    else changes: no entry is created, no run is requested. *)
Theorem unmatched_selection_reprompts
  (Runner_run_sync : Agent -> string -> outcome string) (message : Message) (w : World)
  (Hnone : user_sessions w !! author_id message = None)
  (Hunmatched : forall kw, In kw selection_keywords ->
                  contains_ci (content message) kw = false) :
  main Runner_run_sync message w
  = (Return tt,
     {| user_sessions := user_sessions w;
        sent := sent w ++ ["Please choose one: Web Development, Marketing, or Content Writing."];
        runs := runs w |}).
Proof.
  rewrite (main_selection _ message w Hnone). cbv zeta.
  rewrite !Hunmatched by (unfold selection_keywords; simpl; tauto).
  reflexivity.
Qed.

Lemma unmatched_selection_reprompts_witness :
  let message := {| author_id := "u"; content := "what's the weather today" |} in
  let w := {| user_sessions := ∅; sent := []; runs := [] |} in
  main (fun _ _ => Return "unused") message w
  = (Return tt,
     {| user_sessions := ∅;
        sent := ["Please choose one: Web Development, Marketing, or Content Writing."];
        runs := [] |}).
Proof.
  intros message w.
  apply (unmatched_selection_reprompts (fun _ _ => Return "unused") message w).
  - reflexivity.
  - intros kw Hkw. unfold selection_keywords in Hkw. simpl in Hkw.
    repeat (destruct Hkw as [<-|Hkw]; [reflexivity|]). contradiction.
Defined.

(** C9.  The selection step tries its branches in a fixed order: "web" or
    "development" selects WebDeveloper whatever else the text contains;
    failing those, "marketing" selects DigitalMarketer even next to
    "content" or "writing"; failing that too, "content" or "writing" selects
    ContentWriter. *)
Theorem selection_priority
  (Runner_run_sync : Agent -> string -> outcome string) (message : Message) (w : World)
  (Hnone : user_sessions w !! author_id message = None) :
  let text := content message in
  let w' := (main Runner_run_sync message w).2 in
  (contains_ci text "web" = true \/ contains_ci text "development" = true ->
   user_sessions w' = <[author_id message := "WebDeveloper"]> (user_sessions w))
  /\ (contains_ci text "web" = false -> contains_ci text "development" = false ->
      contains_ci text "marketing" = true ->
      user_sessions w' = <[author_id message := "DigitalMarketer"]> (user_sessions w))
  /\ (contains_ci text "web" = false -> contains_ci text "development" = false ->
      contains_ci text "marketing" = false ->
      contains_ci text "content" = true \/ contains_ci text "writing" = true ->
      user_sessions w' = <[author_id message := "ContentWriter"]> (user_sessions w)).
Proof.
  cbv zeta. rewrite (main_selection _ message w Hnone). cbv zeta.
  repeat split.
  - intros Hweb. apply orb_true_iff in Hweb. now rewrite Hweb.
  - intros -> -> ->. reflexivity.
  - intros -> -> -> Hcw. apply orb_true_iff in Hcw. now rewrite Hcw.
Qed.

Lemma selection_priority_witness :
  let w := {| user_sessions := ∅; sent := []; runs := [] |} in
  let run : Agent -> string -> outcome string := fun _ _ => Return "unused" in
  user_sessions
    (main run {| author_id := "u"; content := "Marketing content for my WEB shop" |} w).2
  = {[ "u" := "WebDeveloper" ]}
  /\ user_sessions
       (main run {| author_id := "u"; content := "content marketing, writing" |} w).2
     = {[ "u" := "DigitalMarketer" ]}
  /\ user_sessions
       (main run {| author_id := "u"; content := "some Writing" |} w).2
     = {[ "u" := "ContentWriter" ]}.
Proof.
  intros w run.
  pose proof (selection_priority run
    {| author_id := "u"; content := "Marketing content for my WEB shop" |} w eq_refl) as H1.
  pose proof (selection_priority run
    {| author_id := "u"; content := "content marketing, writing" |} w eq_refl) as H2.
  pose proof (selection_priority run
    {| author_id := "u"; content := "some Writing" |} w eq_refl) as H3.
  cbv zeta in H1, H2, H3.
  destruct H1 as [H1 _]. destruct H2 as (_ & H2 & _). destruct H3 as (_ & _ & H3).
  split; [|split].
  - rewrite H1; [apply insert_empty|]. left. reflexivity.
  - rewrite H2; [apply insert_empty|reflexivity..].
  - rewrite H3; [apply insert_empty|reflexivity..|]. right. reflexivity.
Defined.

(** C5.  With no session for the user, a text that contains "web" or
    "development", in any case, stores WebDeveloper for that user; the
    user's next message is then dispatched in a single run whose prompt is
    "Assign to WebDeveloper: " followed by the text of that message as it
    was sent. *)
Theorem web_selection_then_dispatch
  (first_run next_run : Agent -> string -> outcome string)
  (message next : Message) (w : World)
  (Hnone : user_sessions w !! author_id message = None)
  (Hweb : contains_ci (content message) "web" = true
          \/ contains_ci (content message) "development" = true)
  (Hsame : author_id next = author_id message) :
  let w1 := (main first_run message w).2 in
  let w2 := (main next_run next w1).2 in
  user_sessions w1 !! author_id message = Some (name web_dev_agent)
  /\ sent w1 = (sent w ++ ["Great! You chose Web Development."])%list
  /\ runs w1 = runs w
  /\ runs w2
     = (runs w ++ [(manager, ("Assign to WebDeveloper: " ++ content next)%string)])%list.
Proof.
  cbv zeta. rewrite (main_selection _ message w Hnone). cbv zeta.
  apply orb_true_iff in Hweb. rewrite Hweb. cbn [snd].
  assert (user_sessions
            (after_selection w message "WebDeveloper" "Great! You chose Web Development.")
          !! author_id next = Some "WebDeveloper") as Hsome.
  { cbn [after_selection user_sessions]. rewrite Hsame. apply lookup_insert_eq. }
  repeat split.
  - cbn [after_selection user_sessions]. apply lookup_insert_eq.
  - rewrite (main_guarded _ next _ "WebDeveloper" Hsome).
    destruct (next_run manager (prompt_for "WebDeveloper" next)) as [out|[| |]];
      reflexivity.
Qed.

Lemma web_selection_then_dispatch_witness :
  let run : Agent -> string -> outcome string := fun _ _ => Return "Use a static site." in
  let message := {| author_id := "u"; content := "I need help with Web Development" |} in
  let next := {| author_id := "u"; content := "Build me a Landing page" |} in
  let w := {| user_sessions := ∅; sent := []; runs := [] |} in
  let w1 := (main run message w).2 in
  let w2 := (main run next w1).2 in
  user_sessions w1 !! "u" = Some "WebDeveloper"
  /\ runs w2 = [(manager, "Assign to WebDeveloper: Build me a Landing page")].
Proof.
  intros run message next w.
  destruct (web_selection_then_dispatch run run message next w
              eq_refl (or_introl eq_refl) eq_refl) as (H1 & _ & _ & H2).
  split; [exact H1|exact H2].
Defined.

(** C2.  A user with a stored domain has no entry left once one guarded
    request has been handled, whether the run returned, tripped the wire or
    was left by any exception, caught or not; the other entries are
    untouched.  The user's next message is therefore handled by the
    selection step: no run is requested and the single reply is one of the
    selection replies. *)
Theorem session_cleared_after_guarded_request
  (Runner_run_sync : Agent -> string -> outcome string)
  (message : Message) (w : World) (routed : string)
  (Hsession : user_sessions w !! author_id message = Some routed) :
  let w' := (main Runner_run_sync message w).2 in
  user_sessions w' = delete (author_id message) (user_sessions w)
  /\ user_sessions w' !! author_id message = None
  /\ forall (next_run : Agent -> string -> outcome string) (next : Message),
       author_id next = author_id message ->
       (main next_run next w').1 = Return tt
       /\ runs (main next_run next w').2 = runs w'
       /\ exists reply,
            In reply selection_replies
            /\ sent (main next_run next w').2 = (sent w' ++ [reply])%list.
Proof.
  cbv zeta.
  assert (user_sessions (main Runner_run_sync message w).2
          = delete (author_id message) (user_sessions w)) as Hdel.
  { rewrite (main_guarded _ message w routed Hsession).
    destruct (Runner_run_sync manager (prompt_for routed message)) as [out|[| |]];
      reflexivity. }
  assert (user_sessions (main Runner_run_sync message w).2 !! author_id message = None)
    as Hgone by (rewrite Hdel; apply lookup_delete_eq).
  split; [exact Hdel|]. split; [exact Hgone|].
  intros next_run next Hsame. rewrite <- Hsame in Hgone.
  rewrite (main_selection next_run next _ Hgone). cbv zeta. cbn [fst snd].
  split; [reflexivity|].
  unfold selection_replies, after_selection.
  destruct (contains_ci (content next) "web" || contains_ci (content next) "development").
  { split; [reflexivity|]. eexists. split; [|reflexivity]. simpl; tauto. }
  destruct (contains_ci (content next) "marketing").
  { split; [reflexivity|]. eexists. split; [|reflexivity]. simpl; tauto. }
  destruct (contains_ci (content next) "content" || contains_ci (content next) "writing").
  { split; [reflexivity|]. eexists. split; [|reflexivity]. simpl; tauto. }
  split; [reflexivity|]. eexists. split; [|reflexivity]. simpl; tauto.
Qed.

Lemma session_cleared_after_guarded_request_witness :
  let w := {| user_sessions := {[ "u" := "ContentWriter"; "v" := "WebDeveloper" ]};
              sent := []; runs := [] |} in
  let message := {| author_id := "u"; content := "a blog post on tea" |} in
  let interrupted : Agent -> string -> outcome string :=
    fun _ _ => Raise (BaseException "KeyboardInterrupt") in
  user_sessions (main interrupted message w).2 !! "u" = None
  /\ user_sessions (main interrupted message w).2 !! "v" = Some "WebDeveloper".
Proof.
  intros w message interrupted.
  destruct (session_cleared_after_guarded_request interrupted message w "ContentWriter"
              eq_refl) as (Hdel & Hgone & _).
  split; [exact Hgone|]. rewrite Hdel. reflexivity.
Defined.

(** C8.  An exception that leaves the run of a guarded request, when it is
    an instance of [Exception], does not leave the handler: the handler
    returns, having sent one reply after the processing notice, the standard
    rejection for the tripwire and "Error: " followed by the text of the
    exception otherwise. *)
Theorem delegation_errors_are_caught
  (Runner_run_sync : Agent -> string -> outcome string)
  (message : Message) (w : World) (routed : string) (e : exn)
  (Hsession : user_sessions w !! author_id message = Some routed)
  (Hraise : Runner_run_sync manager (prompt_for routed message) = Raise e)
  (Hclass : isinstance_Exception e = true) :
  (main Runner_run_sync message w).1 = Return tt
  /\ sent (main Runner_run_sync message w).2
     = (sent w ++
        [ processing_message;
          match e with
          | InputGuardrailTripwireTriggered =>
              "Sorry, I can only help with Web Development, Marketing, or Content Writing."
          | Exception msg | BaseException msg => ("Error: " ++ msg)%string
          end ])%list.
Proof.
  rewrite (main_guarded _ message w routed Hsession), Hraise.
  destruct e as [|msg|msg]; [split; reflexivity..|discriminate].
Qed.

Lemma delegation_errors_are_caught_witness :
  let w := {| user_sessions := {[ "u" := "WebDeveloper" ]}; sent := []; runs := [] |} in
  let message := {| author_id := "u"; content := "an html page" |} in
  let failing : Agent -> string -> outcome string :=
    fun _ _ => Raise (Exception "Request timed out.") in
  let tripping : Agent -> string -> outcome string :=
    fun _ _ => Raise InputGuardrailTripwireTriggered in
  ((main failing message w).1 = Return tt
   /\ sent (main failing message w).2
      = [processing_message; "Error: Request timed out."])
  /\ ((main tripping message w).1 = Return tt
      /\ sent (main tripping message w).2 = [processing_message; rejection_message]).
Proof.
  intros w message failing tripping. split.
  - apply (delegation_errors_are_caught failing message w "WebDeveloper"
             (Exception "Request timed out.") eq_refl eq_refl eq_refl).
  - apply (delegation_errors_are_caught tripping message w "WebDeveloper"
             InputGuardrailTripwireTriggered eq_refl eq_refl eq_refl).
Defined.

(** C7, as the source has it.  When the run of a guarded request returns,
    an output that starts with "Guardrail:" is replaced by the standard
    rejection and any other output is sent as it is; so no reply starts with
    the sentinel. *)
Theorem sentinel_prefix_replaced
  (Runner_run_sync : Agent -> string -> outcome string)
  (message : Message) (w : World) (routed output_text : string)
  (Hsession : user_sessions w !! author_id message = Some routed)
  (Hrun : Runner_run_sync manager (prompt_for routed message) = Return output_text) :
  let reply :=
    if String.prefix "Guardrail:" output_text
    then "Sorry, I can only help with Web Development, Marketing, or Content Writing."
    else output_text in
  main Runner_run_sync message w = (Return tt, after_request w message routed reply)
  /\ String.prefix "Guardrail:" reply = false.
Proof.
  cbv zeta. rewrite (main_guarded _ message w routed Hsession), Hrun.
  split; [reflexivity|].
  destruct (String.prefix "Guardrail:" output_text) eqn:Hp; [reflexivity|exact Hp].
Qed.

Lemma sentinel_prefix_replaced_witness :
  let w := {| user_sessions := {[ "u" := "WebDeveloper" ]}; sent := []; runs := [] |} in
  let message := {| author_id := "u"; content := "an html page" |} in
  main (fun _ _ => Return "Guardrail: request rejected") message w
  = (Return tt, after_request w message "WebDeveloper" rejection_message).
Proof.
  intros w message.
  destruct (sentinel_prefix_replaced (fun _ _ => Return "Guardrail: request rejected")
              message w "WebDeveloper" "Guardrail: request rejected" eq_refl eq_refl)
    as [Hmain _].
  exact Hmain.
Defined.

(** C7, as the claim has it, fails: an output that contains the sentinel
    after its first character is sent to the user as it is. *)
Lemma embedded_sentinel_is_delivered :
  let w := {| user_sessions := {[ "u" := "WebDeveloper" ]}; sent := []; runs := [] |} in
  let message := {| author_id := "u"; content := "an html page" |} in
  let output_text := "Refused. Guardrail: off-topic request" in
  Py.str_in "Guardrail:" output_text = true
  /\ (main (fun _ _ => Return output_text) message w).1 = Return tt
  /\ sent (main (fun _ _ => Return output_text) message w).2
     = [processing_message; "Refused. Guardrail: off-topic request"].
Proof. repeat split. Qed.

(** C3, as the source has it.  For a user whose stored domain is
    DigitalMarketer, the request "write me a poem about cats" is admitted:
    the scan covers every domain and finds "write", so the wire is not
    tripped, on the text as on the prompt built from it.  When the
    classification run and the manager's run return, the reply is the
    manager's output (the standard rejection only when that output starts
    with "Guardrail:"), and the session is cleared. *)
Theorem marketing_poem_request_outcome
  (Runner_run : Agent -> string -> outcome string)
  (user_id : string) (w : World) (rationale output_text : string) :
  let message := {| author_id := user_id; content := "write me a poem about cats" |} in
  let prompt := prompt_for "DigitalMarketer" message in
  user_sessions w !! user_id = Some "DigitalMarketer" ->
  Runner_run guardrail_agent prompt = Return rationale ->
  Runner_run manager prompt = Return output_text ->
  keyword_allowed (content message) = true
  /\ topic_guardrail Runner_run manager (InputStr prompt)
     = Return {| output_info := rationale; tripwire_triggered := false |}
  /\ main (guarded_run Runner_run) message w
     = (Return tt,
        after_request w message "DigitalMarketer"
          (if Py.startswith output_text guard_prefix
           then rejection_message else output_text))
  /\ user_sessions (main (guarded_run Runner_run) message w).2 !! user_id = None.
Proof.
  intros message prompt Hsession Hclass Hanswer.
  assert (topic_guardrail Runner_run manager (InputStr prompt)
          = Return {| output_info := rationale; tripwire_triggered := false |}) as Hg.
  { unfold topic_guardrail. cbn [input_text]. rewrite Hclass. reflexivity. }
  assert (main (guarded_run Runner_run) message w
          = (Return tt,
             after_request w message "DigitalMarketer"
               (if Py.startswith output_text guard_prefix
                then rejection_message else output_text))) as Hmain.
  { rewrite (main_guarded _ message w "DigitalMarketer" Hsession).
    fold prompt. unfold guarded_run. rewrite Hg. cbn [tripwire_triggered].
    rewrite Hanswer. reflexivity. }
  split; [reflexivity|]. split; [exact Hg|]. split; [exact Hmain|].
  rewrite Hmain. cbn [snd after_request user_sessions]. apply lookup_delete_eq.
Qed.

Lemma marketing_poem_request_outcome_witness :
  let w := {| user_sessions := {[ "u" := "DigitalMarketer" ]}; sent := []; runs := [] |} in
  let message := {| author_id := "u"; content := "write me a poem about cats" |} in
  main (guarded_run (fun _ _ => Return "Roses are red")) message w
  = (Return tt, after_request w message "DigitalMarketer" "Roses are red").
Proof.
  intros w message.
  destruct (marketing_poem_request_outcome (fun _ _ => Return "Roses are red") "u" w
              "Roses are red" "Roses are red" eq_refl eq_refl eq_refl)
    as (_ & _ & Hmain & _).
  exact Hmain.
Defined.

(** C3, as the claim has it, fails: on that request the guardrail's result
    has the tripwire unset, and the user receives the manager's output, not
    the standard rejection. *)
Lemma poem_request_is_admitted :
  let w := {| user_sessions := {[ "u" := "DigitalMarketer" ]}; sent := []; runs := [] |} in
  let message := {| author_id := "u"; content := "write me a poem about cats" |} in
  let Runner_run : Agent -> string -> outcome string :=
    fun _ _ => Return "Roses are red" in
  topic_guardrail Runner_run manager (InputStr (content message))
  = Return {| output_info := "Roses are red"; tripwire_triggered := false |}
  /\ topic_guardrail Runner_run manager (InputStr (prompt_for "DigitalMarketer" message))
     = Return {| output_info := "Roses are red"; tripwire_triggered := false |}
  /\ sent (main (guarded_run Runner_run) message w).2
     = [processing_message; "Roses are red"]
  /\ "Roses are red" <> rejection_message.
Proof. repeat split. discriminate. Qed.

(** ** The keyword scan and the text around a keyword *)

Lemma ci_prefix_app kw : forall s t,
  ci_prefix kw s = true -> ci_prefix kw (s ++ t) = true.
Proof.
  induction kw as [|a kw IH]; intros s t H; [reflexivity|].
  destruct s as [|c s]; [discriminate|].
  rewrite string_app_cons. cbn [ci_prefix] in *.
  apply andb_prop in H as [Hc Hrest]. rewrite Hc. cbn [andb]. now apply IH.
Qed.

Lemma ci_occurs_app_l s t kw :
  ci_occurs s kw = true -> ci_occurs (s ++ t) kw = true.
Proof.
  induction s as [|c s IH]; intros H.
  - cbn [ci_occurs] in H. rewrite orb_false_r in H.
    destruct kw as [|a kw]; [|discriminate].
    destruct ("" ++ t); reflexivity.
  - rewrite string_app_cons. cbn [ci_occurs] in *.
    apply orb_prop in H as [H|H].
    + rewrite <- string_app_cons, (ci_prefix_app kw _ t H). reflexivity.
    + rewrite (IH H). apply orb_true_r.
Qed.

Lemma ci_occurs_app_r s t kw :
  ci_occurs t kw = true -> ci_occurs (s ++ t) kw = true.
Proof.
  intros H. induction s as [|c s IH]; [exact H|].
  rewrite string_app_cons. cbn [ci_occurs]. rewrite IH. apply orb_true_r.
Qed.

Lemma keyword_allowed_true_iff text :
  keyword_allowed text = true
  <-> exists kw, In kw all_keywords /\ contains_ci text kw = true.
Proof. rewrite keyword_allowed_spec. apply existsb_exists. Qed.

Lemma string_app_nil_r s : s ++ "" = s.
Proof.
  induction s as [|c s IH]; [reflexivity|].
  rewrite string_app_cons. now f_equal.
Qed.

(** A word written in ASCII neither begins nor ends among bytes outside
    ASCII. *)
Lemma ci_occurs_skip_no_ascii raw s kw :
  no_ascii raw = true -> ascii_only kw = true -> kw <> EmptyString ->
  ci_occurs (raw ++ s) kw = ci_occurs s kw.
Proof.
  intros Hraw Hkw Hne. destruct kw as [|a kw]; [congruence|].
  cbn [ascii_only] in Hkw. apply andb_prop in Hkw as [Ha _].
  induction raw as [|r raw IH]; [reflexivity|].
  cbn [no_ascii] in Hraw. apply andb_prop in Hraw as [Hr Hraw].
  apply negb_true_iff in Hr.
  rewrite string_app_cons. cbn [ci_occurs ci_prefix].
  rewrite (ascii_mismatch a r Ha Hr). cbn [andb orb]. now apply IH.
Qed.

Lemma ci_prefix_cut_no_ascii kw : forall s raw,
  ascii_only kw = true -> no_ascii raw = true ->
  ci_prefix kw (s ++ raw) = true -> ci_prefix kw s = true.
Proof.
  induction kw as [|a kw IH]; intros s raw Hkw Hraw H; [reflexivity|].
  cbn [ascii_only] in Hkw. apply andb_prop in Hkw as [Ha Hkw].
  destruct s as [|c s].
  - destruct raw as [|r raw]; [discriminate|].
    cbn [no_ascii] in Hraw. apply andb_prop in Hraw as [Hr _].
    apply negb_true_iff in Hr.
    change ("" ++ String r raw) with (String r raw) in H. cbn [ci_prefix] in H.
    rewrite (ascii_mismatch a r Ha Hr) in H. discriminate.
  - rewrite string_app_cons in H. cbn [ci_prefix] in *.
    apply andb_prop in H as [Hc H]. rewrite Hc. cbn [andb].
    now apply (IH s raw).
Qed.

Lemma ci_occurs_cut_no_ascii s raw kw :
  ascii_only kw = true -> kw <> EmptyString -> no_ascii raw = true ->
  ci_occurs (s ++ raw) kw = true -> ci_occurs s kw = true.
Proof.
  intros Hkw Hne Hraw. induction s as [|c s IH]; intros H.
  - change ("" ++ raw) with raw in H.
    rewrite <- (ci_occurs_skip_no_ascii raw "" kw Hraw Hkw Hne).
    now rewrite string_app_nil_r.
  - rewrite string_app_cons in H. cbn [ci_occurs] in *.
    apply orb_prop in H as [H|H].
    + rewrite <- string_app_cons in H.
      now rewrite (ci_prefix_cut_no_ascii kw _ raw Hkw Hraw H).
    + rewrite (IH H). apply orb_true_r.
Qed.

Lemma signs_other_head c s :
  Ascii.eqb c "226" = false -> Ascii.eqb c "196" = false ->
  signs_as_letters (String c s) = String c (signs_as_letters s).
Proof.
  intros Hk Hi. apply signs_plain.
  destruct (starts_sign (String c s)) eqn:Hs; [|reflexivity].
  apply starts_sign_cases in Hs as [[t Hs]|[t Hs]]; injection Hs as -> _; discriminate.
Qed.

(** The ways a sign can lie across the end of one text and the beginning
    of the next. *)
Lemma straddle_shapes c a b :
  starts_sign (String c a) = false -> starts_sign (String c (a ++ b)) = true ->
  (c = "226"%char /\ a = EmptyString
   /\ exists b', b = String "132" (String "170" b'))
  \/ (c = "226"%char /\ a = String "132" EmptyString
      /\ exists b', b = String "170" b')
  \/ (c = "196"%char /\ a = EmptyString /\ exists b', b = String "176" b').
Proof.
  intros Hf Ht. apply starts_sign_cases in Ht as [[t Ht]|[t Ht]]; injection Ht as -> Ht.
  - destruct a as [|a1 a].
    + left. repeat split. now exists t.
    + rewrite string_app_cons in Ht. injection Ht as -> Ht.
      destruct a as [|a2 a].
      * right. left. repeat split. now exists t.
      * rewrite string_app_cons in Ht. injection Ht as -> _. discriminate.
  - destruct a as [|a1 a].
    + right. right. repeat split. now exists t.
    + rewrite string_app_cons in Ht. injection Ht as -> _. discriminate.
Qed.

(** What is before a text changes its folding at most by taking its first
    bytes, none of them ASCII, into a sign. *)
Lemma signs_app_l a : forall b,
  exists X raw b',
    b = raw ++ b'
    /\ signs_as_letters b = raw ++ signs_as_letters b'
    /\ signs_as_letters (a ++ b) = X ++ signs_as_letters b'
    /\ no_ascii raw = true.
Proof.
  induction a as [|t IH|t IH|c t Hs IH] using sign_ind; intros b.
  - exists "", "", b. repeat split.
  - destruct (IH b) as (X & raw & b' & Hb & Hsb & Hab & Hraw).
    exists (String "k" X), raw, b'. repeat split; try assumption.
    rewrite !string_app_cons, signs_kelvin, Hab. reflexivity.
  - destruct (IH b) as (X & raw & b' & Hb & Hsb & Hab & Hraw).
    exists (String "i" (String "204" (String "135" X))), raw, b'.
    repeat split; try assumption.
    rewrite !string_app_cons, signs_dotted_i, Hab. reflexivity.
  - destruct (starts_sign (String c (t ++ b))) eqn:Hs'.
    + destruct (straddle_shapes c t b Hs Hs')
        as [(-> & -> & b' & ->)|[(-> & -> & b' & ->)|(-> & -> & b' & ->)]].
      * exists "k", (String "132" (String "170" "")), b'. repeat split.
        now rewrite !signs_other_head by reflexivity.
      * exists "k", (String "170" ""), b'. repeat split.
        now rewrite !signs_other_head by reflexivity.
      * exists (String "i" (String "204" (String "135" ""))), (String "176" ""), b'.
        repeat split. now rewrite !signs_other_head by reflexivity.
    + destruct (IH b) as (X & raw & b' & Hb & Hsb & Hab & Hraw).
      exists (String c X), raw, b'. repeat split; try assumption.
      rewrite string_app_cons, (signs_plain _ _ Hs'), Hab. reflexivity.
Qed.

(** What is after a text changes its folding at most by taking its last
    bytes, none of them ASCII, into a sign. *)
Lemma signs_app_r a : forall b,
  exists L raw Y,
    signs_as_letters a = L ++ raw
    /\ signs_as_letters (a ++ b) = L ++ Y
    /\ no_ascii raw = true.
Proof.
  induction a as [|t IH|t IH|c t Hs IH] using sign_ind; intros b.
  - exists "", "", (signs_as_letters b). repeat split.
  - destruct (IH b) as (L & raw & Y & Ha & Hab & Hraw).
    exists (String "k" L), raw, Y. repeat split; try assumption.
    + rewrite signs_kelvin, Ha. reflexivity.
    + rewrite !string_app_cons, signs_kelvin, Hab. reflexivity.
  - destruct (IH b) as (L & raw & Y & Ha & Hab & Hraw).
    exists (String "i" (String "204" (String "135" L))), raw, Y.
    repeat split; try assumption.
    + rewrite signs_dotted_i, Ha. reflexivity.
    + rewrite !string_app_cons, signs_dotted_i, Hab. reflexivity.
  - destruct (starts_sign (String c (t ++ b))) eqn:Hs'.
    + destruct (straddle_shapes c t b Hs Hs')
        as [(-> & -> & b' & ->)|[(-> & -> & b' & ->)|(-> & -> & b' & ->)]].
      * exists "", (String "226" ""), (signs_as_letters (String "226" "" ++ String "132" (String "170" b'))).
        repeat split.
      * exists "", (String "226" (String "132" "")),
          (signs_as_letters (String "226" (String "132" "") ++ String "170" b')).
        repeat split.
      * exists "", (String "196" ""), (signs_as_letters (String "196" "" ++ String "176" b')).
        repeat split.
    + destruct (IH b) as (L & raw & Y & Ha & Hab & Hraw).
      exists (String c L), raw, Y. repeat split; try assumption.
      * rewrite (signs_plain _ _ Hs), Ha. reflexivity.
      * rewrite string_app_cons, (signs_plain _ _ Hs'), Hab. reflexivity.
Qed.

(** An occurrence of a word written in ASCII survives what is put around
    the text. *)
Lemma contains_ci_context pre text post kw :
  ascii_only kw = true -> kw <> EmptyString ->
  contains_ci text kw = true -> contains_ci (pre ++ text ++ post) kw = true.
Proof.
  unfold contains_ci. intros Hkw Hne H.
  assert (ci_occurs (signs_as_letters (text ++ post)) kw = true) as Hpost.
  { destruct (signs_app_r text post) as (L & raw & Y & Ha & -> & Hraw).
    rewrite Ha in H. apply ci_occurs_app_l.
    now apply (ci_occurs_cut_no_ascii L raw kw). }
  destruct (signs_app_l pre (text ++ post)) as (X & raw & b' & _ & Hsb & -> & Hraw).
  rewrite Hsb, (ci_occurs_skip_no_ascii raw _ kw Hraw Hkw Hne) in Hpost.
  now apply ci_occurs_app_r.
Qed.

(** X1.  Text put before or after an admitted text cannot make the scan
    reject it. *)
Theorem keyword_scan_ignores_context (pre text post : string)
  (Hallowed : keyword_allowed text = true) :
  keyword_allowed (pre ++ text ++ post) = true.
Proof.
  apply keyword_allowed_true_iff in Hallowed as (kw & Hkw & Hin).
  apply keyword_allowed_true_iff. exists kw. split; [exact Hkw|].
  destruct (all_keywords_ascii kw Hkw) as [Hascii Hne].
  now apply contains_ci_context.
Qed.

Lemma keyword_scan_ignores_context_witness :
  keyword_allowed ("Do not " ++ "WRITE" ++ " to me") = true.
Proof. apply (keyword_scan_ignores_context "Do not " "WRITE" " to me"). reflexivity. Defined.

(** ** The guardrail on the prompts of the router *)

Lemma ci_prefix_app_disagree sub : forall p t,
  ci_agrees sub p = false -> ci_prefix sub (p ++ t) = false.
Proof.
  induction sub as [|a sub IH]; intros p t H; [destruct p; discriminate|].
  destruct p as [|b p]; [discriminate|].
  rewrite string_app_cons. cbn [ci_prefix ci_agrees] in *.
  destruct (Ascii.eqb (Py.lower_char a) (Py.lower_char b)); [|reflexivity].
  cbn [andb] in *. now apply IH.
Qed.

Lemma ci_occurs_skip p t sub :
  no_start_in p sub = true -> ci_occurs (p ++ t) sub = ci_occurs t sub.
Proof.
  induction p as [|c p IH]; intros H; [reflexivity|].
  cbn [no_start_in] in H. apply andb_prop in H as [Hc Hp].
  apply negb_true_iff in Hc.
  rewrite <- (IH Hp), string_app_cons. cbn [ci_occurs].
  rewrite <- string_app_cons, (ci_prefix_app_disagree sub _ t Hc). reflexivity.
Qed.

(** Words written in ASCII hold no sign and take none from what follows. *)
Lemma signs_ascii_prefix p t :
  ascii_only p = true -> signs_as_letters (p ++ t) = p ++ signs_as_letters t.
Proof.
  induction p as [|c p IH]; intros H; [reflexivity|].
  cbn [ascii_only] in H. apply andb_prop in H as [Hc Hp].
  rewrite !string_app_cons, (signs_ascii_head c _ Hc), (IH Hp). reflexivity.
Qed.

Lemma keyword_allowed_skip p text :
  ascii_only p = true ->
  forallb (no_start_in p) all_keywords = true ->
  keyword_allowed (p ++ text) = keyword_allowed text.
Proof.
  intros Hp H. rewrite !keyword_allowed_spec. unfold contains_ci.
  rewrite (signs_ascii_prefix p text Hp).
  rewrite forallb_forall in H. revert H.
  induction all_keywords as [|kw kws IH]; intros H; [reflexivity|].
  cbn [existsb]. rewrite ci_occurs_skip by (apply H; now left).
  rewrite IH; [reflexivity|]. intros k Hk. apply H. now right.
Qed.

Lemma prompt_scan_web text :
  keyword_allowed ("Assign to WebDeveloper: " ++ text) = keyword_allowed text.
Proof. apply keyword_allowed_skip; vm_compute; reflexivity. Qed.

Lemma prompt_scan_marketer text :
  keyword_allowed ("Assign to DigitalMarketer: " ++ text) = keyword_allowed text.
Proof. apply keyword_allowed_skip; vm_compute; reflexivity. Qed.

Lemma prompt_scan_writer text :
  keyword_allowed ("Assign to ContentWriter: " ++ text) = true.
Proof.
  apply keyword_allowed_true_iff. exists "content". split; [vm_compute; tauto|].
  unfold contains_ci. rewrite signs_ascii_prefix by reflexivity.
  apply ci_occurs_app_l. reflexivity.
Qed.

(** X3.  The manager's guardrail scans the prompt, not the bare message.
    The words "Assign to WebDeveloper: " and "Assign to DigitalMarketer: "
    neither hold a keyword nor complete one with the text that follows, so
    for these two domains the verdict on the prompt is the verdict on the
    message; the words "Assign to ContentWriter: " hold the keyword
    "content", so every prompt of that domain is admitted. *)
Theorem prompt_scan_by_domain (message : Message) :
  keyword_allowed (prompt_for "WebDeveloper" message) = keyword_allowed (content message)
  /\ keyword_allowed (prompt_for "DigitalMarketer" message)
     = keyword_allowed (content message)
  /\ keyword_allowed (prompt_for "ContentWriter" message) = true.
Proof.
  split; [exact (prompt_scan_web (content message))|].
  split; [exact (prompt_scan_marketer (content message))|].
  exact (prompt_scan_writer (content message)).
Qed.

(** X4.  In a WebDeveloper or DigitalMarketer session, the words that the
    handler puts before a request do not rescue it: when the request holds
    no configured keyword, the guardrail given the prompt sets the tripwire,
    whatever rationale the classification run returns. *)
Theorem keyword_free_request_trips_on_prompt
  (Runner_run : Agent -> string -> outcome string)
  (agent : Agent) (message : Message) (routed rationale : string)
  (Hrouted : routed = "WebDeveloper" \/ routed = "DigitalMarketer")
  (Hnone : no_configured_keyword (content message))
  (Hclass : Runner_run guardrail_agent (prompt_for routed message) = Return rationale) :
  topic_guardrail Runner_run agent (InputStr (prompt_for routed message))
  = Return {| output_info := rationale; tripwire_triggered := true |}.
Proof.
  assert (keyword_allowed (prompt_for routed message) = false) as Hscan.
  { apply no_configured_keyword_iff in Hnone. rewrite <- keyword_allowed_spec in Hnone.
    destruct Hrouted as [-> | ->].
    - now rewrite <- (prompt_scan_web (content message)) in Hnone.
    - now rewrite <- (prompt_scan_marketer (content message)) in Hnone. }
  unfold topic_guardrail. cbn [input_text]. rewrite Hclass, Hscan. reflexivity.
Qed.

Lemma keyword_free_request_trips_on_prompt_witness :
  topic_guardrail (fun _ _ => Return "off topic") manager
    (InputStr "Assign to DigitalMarketer: tell me a joke")
  = Return {| output_info := "off topic"; tripwire_triggered := true |}.
Proof.
  apply (keyword_free_request_trips_on_prompt (fun _ _ => Return "off topic") manager
           {| author_id := "u"; content := "tell me a joke" |} "DigitalMarketer"
           "off topic" (or_intror eq_refl)).
  - apply no_configured_keyword_iff. vm_compute. reflexivity.
  - reflexivity.
Defined.

(** X5.  In a ContentWriter session the guardrail never trips: once the
    classification run returns, the run of the manager is the manager's own
    answer, whatever the request says, and the handler behaves as it would
    without a guardrail. *)
Theorem content_writer_session_never_trips
  (Runner_run : Agent -> string -> outcome string)
  (message : Message) (w : World) (rationale : string)
  (Hsession : user_sessions w !! author_id message = Some "ContentWriter")
  (Hclass : Runner_run guardrail_agent (prompt_for "ContentWriter" message)
            = Return rationale) :
  guarded_run Runner_run manager (prompt_for "ContentWriter" message)
  = Runner_run manager (prompt_for "ContentWriter" message)
  /\ main (guarded_run Runner_run) message w = main Runner_run message w.
Proof.
  assert (guarded_run Runner_run manager (prompt_for "ContentWriter" message)
          = Runner_run manager (prompt_for "ContentWriter" message)) as Hrun.
  { unfold guarded_run, topic_guardrail. cbn [input_text]. rewrite Hclass.
    rewrite (prompt_scan_writer (content message) : keyword_allowed (prompt_for "ContentWriter" message) = true).
    reflexivity. }
  split; [exact Hrun|].
  rewrite !(main_guarded _ message w "ContentWriter" Hsession), Hrun. reflexivity.
Qed.

Lemma content_writer_session_never_trips_witness :
  let w := {| user_sessions := {[ "u" := "ContentWriter" ]}; sent := []; runs := [] |} in
  let message := {| author_id := "u"; content := "what is the capital of Peru" |} in
  keyword_allowed (content message) = false
  /\ main (guarded_run (fun _ _ => Return "Lima")) message w
     = main (fun _ _ => Return "Lima") message w.
Proof.
  intros w message. split; [reflexivity|].
  apply (content_writer_session_never_trips (fun _ _ => Return "Lima") message w "Lima"
           eq_refl eq_refl).
Defined.

(** ** The handler and the session store *)

(** The session store after one message, whatever the branch taken. *)
Lemma main_sessions (Runner_run_sync : Agent -> string -> outcome string) message w :
  (exists routed,
     user_sessions w !! author_id message = Some routed
     /\ user_sessions (main Runner_run_sync message w).2
        = delete (author_id message) (user_sessions w))
  \/ (user_sessions w !! author_id message = None
      /\ (user_sessions (main Runner_run_sync message w).2 = user_sessions w
          \/ exists domain,
               In domain domain_names
               /\ user_sessions (main Runner_run_sync message w).2
                  = <[author_id message := domain]> (user_sessions w))).
Proof.
  destruct (user_sessions w !! author_id message) as [routed|] eqn:Hs.
  - left. exists routed. split; [reflexivity|].
    rewrite (main_guarded _ message w routed Hs).
    destruct (Runner_run_sync manager (prompt_for routed message)) as [out|[| |]];
      reflexivity.
  - right. split; [reflexivity|].
    rewrite (main_selection _ message w Hs). cbv zeta. cbn [snd].
    destruct (contains_ci (content message) "web" || contains_ci (content message) "development").
    { right. exists "WebDeveloper". split; [vm_compute; tauto|reflexivity]. }
    destruct (contains_ci (content message) "marketing").
    { right. exists "DigitalMarketer". split; [vm_compute; tauto|reflexivity]. }
    destruct (contains_ci (content message) "content" || contains_ci (content message) "writing").
    { right. exists "ContentWriter". split; [vm_compute; tauto|reflexivity]. }
    left. reflexivity.
Qed.

Lemma main_preserves_sessions_valid
  (Runner_run_sync : Agent -> string -> outcome string) message w :
  sessions_valid w -> sessions_valid (main Runner_run_sync message w).2.
Proof.
  intros Hv user_id domain.
  destruct (main_sessions Runner_run_sync message w)
    as [(routed & _ & ->)|(_ & [-> | (d & Hd & ->)])].
  - intros H. apply lookup_delete_Some in H as [_ H]. eapply Hv, H.
  - apply Hv.
  - intros H. apply lookup_insert_Some in H as [[_ <-]|[_ H]]; [exact Hd|].
    eapply Hv, H.
Qed.

Lemma main_runs (Runner_run_sync : Agent -> string -> outcome string) message w :
  runs (main Runner_run_sync message w).2 = runs w
  \/ exists routed,
       user_sessions w !! author_id message = Some routed
       /\ runs (main Runner_run_sync message w).2
          = (runs w ++ [(manager, prompt_for routed message)])%list.
Proof.
  destruct (user_sessions w !! author_id message) as [routed|] eqn:Hs.
  - right. exists routed. split; [reflexivity|].
    rewrite (main_guarded _ message w routed Hs).
    destruct (Runner_run_sync manager (prompt_for routed message)) as [out|[| |]];
      reflexivity.
  - left. rewrite (main_selection _ message w Hs). cbv zeta. cbn [snd].
    destruct (contains_ci (content message) "web" || contains_ci (content message) "development");
      [reflexivity|].
    destruct (contains_ci (content message) "marketing"); [reflexivity|].
    destruct (contains_ci (content message) "content" || contains_ci (content message) "writing");
      reflexivity.
Qed.

(** X6.  Handling a message of one user leaves the entry of every other
    user as it was, on every branch and for every outcome of the run. *)
Theorem other_sessions_untouched
  (Runner_run_sync : Agent -> string -> outcome string)
  (message : Message) (w : World) (other : string)
  (Hother : other <> author_id message) :
  user_sessions (main Runner_run_sync message w).2 !! other = user_sessions w !! other.
Proof.
  destruct (main_sessions Runner_run_sync message w)
    as [(routed & _ & ->)|(_ & [-> | (d & _ & ->)])].
  - now apply lookup_delete_ne.
  - reflexivity.
  - now apply lookup_insert_ne.
Qed.

Lemma other_sessions_untouched_witness :
  let w := {| user_sessions := {[ "u" := "WebDeveloper"; "v" := "ContentWriter" ]};
              sent := []; runs := [] |} in
  let message := {| author_id := "u"; content := "an html page" |} in
  user_sessions (main (fun _ _ => Raise (Exception "boom")) message w).2 !! "v"
  = Some "ContentWriter".
Proof.
  intros w message.
  rewrite (other_sessions_untouched (fun _ _ => Raise (Exception "boom")) message w "v").
  - reflexivity.
  - discriminate.
Defined.

(** X7.  In every world the process can reach, each stored domain is one of
    the three keys of [domain_keywords]. *)
Theorem stored_domains_are_registry_keys (w : World) (Hreach : reachable w) :
  sessions_valid w.
Proof.
  induction Hreach as [|w w' _ IH Hstep].
  - intros user_id domain H. unfold initial_world in H. cbn [user_sessions] in H.
    rewrite lookup_empty in H. discriminate.
  - destruct Hstep as [w|Runner_run_sync message w]; [exact IH|].
    now apply main_preserves_sessions_valid.
Qed.

Lemma stored_domains_are_registry_keys_witness :
  let run : Agent -> string -> outcome string := fun _ _ => Return "ok" in
  let w1 := (start initial_world).2 in
  let w2 := (main run {| author_id := "u"; content := "Marketing please" |} w1).2 in
  user_sessions w2 !! "u" = Some "DigitalMarketer" /\ sessions_valid w2.
Proof.
  intros run w1 w2. split; [reflexivity|].
  apply stored_domains_are_registry_keys.
  apply (reachable_step w1 w2); [|apply step_message].
  apply (reachable_step initial_world w1); [apply reachable_initial|apply step_start].
Defined.

(** X8.  In every world the process can reach, every run that was requested
    is a run of the manager, on a prompt "Assign to <domain>: <text>" whose
    domain is a key of [domain_keywords]; the three specialist agents and
    the guardrail agent are never run by the handler. *)
Theorem runs_go_to_manager (w : World) (Hreach : reachable w) : runs_valid w.
Proof.
  assert (sessions_valid w /\ runs_valid w) as [_ H]; [|exact H].
  induction Hreach as [|w w' _ [IHs IHr] Hstep].
  - split.
    + intros user_id domain H. unfold initial_world in H. cbn [user_sessions] in H.
    rewrite lookup_empty in H. discriminate.
    + intros agent prompt [].
  - destruct Hstep as [w|Runner_run_sync message w]; [now split|].
    split; [now apply main_preserves_sessions_valid|].
    intros agent prompt Hin.
    destruct (main_runs Runner_run_sync message w) as [Heq|(routed & Hs & Heq)];
      rewrite Heq in Hin; [now apply IHr|].
    apply in_app_or in Hin as [Hin|[Hin|[]]]; [now apply IHr|].
    injection Hin as <- <-. split; [reflexivity|].
    exists routed, (content message). split; [eapply IHs, Hs|reflexivity].
Qed.

Lemma runs_go_to_manager_witness :
  let run : Agent -> string -> outcome string := fun _ _ => Return "ok" in
  let w1 := (main run {| author_id := "u"; content := "web" |} initial_world).2 in
  let w2 := (main run {| author_id := "u"; content := "a css grid" |} w1).2 in
  runs w2 = [(manager, "Assign to WebDeveloper: a css grid")] /\ runs_valid w2.
Proof.
  intros run w1 w2. split; [reflexivity|].
  apply runs_go_to_manager.
  apply (reachable_step w1 w2); [|apply step_message].
  apply (reachable_step initial_world w1); [apply reachable_initial|apply step_message].
Defined.

(** X9.  A selection followed by the same user's request is a round trip on
    the session store: whatever the two messages say beyond the matched
    selection word, and however the run ends, the store is what it was
    before the selection. *)
Theorem selection_then_request_restores_sessions
  (first_run next_run : Agent -> string -> outcome string)
  (message next : Message) (w : World) (kw : string)
  (Hnone : user_sessions w !! author_id message = None)
  (Hkw : In kw selection_keywords)
  (Hmatch : contains_ci (content message) kw = true)
  (Hsame : author_id next = author_id message) :
  user_sessions (main next_run next (main first_run message w).2).2 = user_sessions w.
Proof.
  destruct (main_sessions first_run message w)
    as [(routed & Hs & _)|(_ & [Heq | (d & _ & Heq)])].
  - congruence.
  - exfalso. revert Heq. rewrite (main_selection _ message w Hnone). cbv zeta. cbn [snd].
    unfold selection_keywords in Hkw. simpl in Hkw.
    destruct Hkw as [<-|[<-|[<-|[<-|[<-|[]]]]]]; rewrite Hmatch;
      rewrite ?orb_true_r; cbn [orb];
      repeat match goal with
             | |- context [if ?b then _ else _] => destruct b
             end;
      cbn [after_selection user_sessions]; intros Heq;
      (assert (user_sessions w !! author_id message = Some "WebDeveloper"
               \/ user_sessions w !! author_id message = Some "DigitalMarketer"
               \/ user_sessions w !! author_id message = Some "ContentWriter") as Hbad
         by (rewrite <- Heq, lookup_insert_eq; tauto));
      rewrite Hnone in Hbad; destruct Hbad as [?|[?|?]]; discriminate.
  - set (w1 := (main first_run message w).2) in *.
    assert (user_sessions w1 !! author_id next = Some d) as Hs
      by (rewrite Heq, Hsame; apply lookup_insert_eq).
    destruct (main_sessions next_run next w1) as [(routed & _ & ->)|(Hs' & _)];
      [|congruence].
    rewrite Heq, Hsame. now apply delete_insert_id.
Qed.

Lemma selection_then_request_restores_sessions_witness :
  let w := {| user_sessions := {[ "v" := "ContentWriter" ]}; sent := []; runs := [] |} in
  let message := {| author_id := "u"; content := "Web Development" |} in
  let next := {| author_id := "u"; content := "a landing page" |} in
  user_sessions
    (main (fun _ _ => Raise InputGuardrailTripwireTriggered) next
       (main (fun _ _ => Return "unused") message w).2).2
  = {[ "v" := "ContentWriter" ]}.
Proof.
  intros w message next.
  apply (selection_then_request_restores_sessions (fun _ _ => Return "unused")
           (fun _ _ => Raise InputGuardrailTripwireTriggered) message next w "web").
  - reflexivity.
  - unfold selection_keywords. simpl. tauto.
  - reflexivity.
  - reflexivity.
Defined.

(** X10.  The selection step never contacts the inference service: for a
    user without a session the handler requests no run, and its result and
    the world it leaves are the same whatever the service would do. *)
Theorem selection_makes_no_run
  (Runner_run_sync other_run : Agent -> string -> outcome string)
  (message : Message) (w : World)
  (Hnone : user_sessions w !! author_id message = None) :
  runs (main Runner_run_sync message w).2 = runs w
  /\ main Runner_run_sync message w = main other_run message w.
Proof.
  split.
  - destruct (main_runs Runner_run_sync message w) as [Heq|(routed & Hs & _)];
      [exact Heq|congruence].
  - now rewrite !(main_selection _ message w Hnone).
Qed.

Lemma selection_makes_no_run_witness :
  let message := {| author_id := "u"; content := "write a blog post" |} in
  main (fun _ _ => Raise (BaseException "KeyboardInterrupt")) message initial_world
  = main (fun _ _ => Return "A post") message initial_world.
Proof.
  intros message.
  apply (selection_makes_no_run (fun _ _ => Raise (BaseException "KeyboardInterrupt"))
           (fun _ _ => Return "A post") message initial_world eq_refl).
Defined.

(** X12.  The handler only adds to what was sent: one message on the
    selection step; the processing notice followed by at most one reply on
    a guarded request, the reply being absent only when the handler raises.
    At most one run is requested. *)
Theorem transport_log_grows
  (Runner_run_sync : Agent -> string -> outcome string) (message : Message) (w : World) :
  let r := main Runner_run_sync message w in
  exists new,
    sent r.2 = (sent w ++ new)%list
    /\ (user_sessions w !! author_id message = None -> length new = 1)
    /\ (is_Some (user_sessions w !! author_id message) ->
        exists rest, new = processing_message :: rest
                     /\ (r.1 = Return tt -> length rest = 1)
                     /\ (r.1 <> Return tt -> rest = []))
    /\ length (runs r.2) <= S (length (runs w)).
Proof.
  cbv zeta.
  destruct (user_sessions w !! author_id message) as [routed|] eqn:Hs.
  - rewrite (main_guarded _ message w routed Hs).
    destruct (Runner_run_sync manager (prompt_for routed message)) as [out|[| |msg]];
      cbn [fst snd after_request sent runs];
      eexists; (split; [reflexivity|]); (split; [discriminate|]);
      (split; [|rewrite length_app; simpl; lia]);
      intros _; eexists; (split; [reflexivity|]);
      split; intros H; try reflexivity; try discriminate; congruence.
  - rewrite (main_selection _ message w Hs). cbv zeta. cbn [fst snd].
    assert (forall w' : World,
              (exists reply, sent w' = (sent w ++ [reply])%list) -> runs w' = runs w ->
              exists new, sent w' = (sent w ++ new)%list
                /\ (@None string = None -> length new = 1)
                /\ (is_Some (@None string) ->
                    exists rest, new = processing_message :: rest
                      /\ (Return tt = Return tt -> length rest = 1)
                      /\ (Return tt <> Return (A:=unit) tt -> rest = []))
                /\ length (runs w') <= S (length (runs w))) as Hshape.
    { intros w' [reply Hsent] Hruns. exists [reply].
      split; [exact Hsent|]. split; [reflexivity|].
      split; [intros [? ?]; discriminate|]. rewrite Hruns. lia. }
    destruct (contains_ci (content message) "web" || contains_ci (content message) "development");
      [apply Hshape; [eexists|]; reflexivity|].
    destruct (contains_ci (content message) "marketing");
      [apply Hshape; [eexists|]; reflexivity|].
    destruct (contains_ci (content message) "content" || contains_ci (content message) "writing");
      apply Hshape; try reflexivity; eexists; reflexivity.
Qed.

(** ** Start-up *)

(** X13.  Loading the module succeeds exactly when GEMINI_API_KEY is set to
    a non-empty value, and then yields that value; an empty value is refused
    like a missing one, with the same [ValueError]. *)
Theorem load_api_key_needs_nonempty_key (environ : gmap string string) :
  (forall key,
     load_api_key environ = Return key
     <-> environ !! "GEMINI_API_KEY" = Some key /\ key <> "")
  /\ ((environ !! "GEMINI_API_KEY" = None \/ environ !! "GEMINI_API_KEY" = Some "")
      <-> load_api_key environ
          = Raise (Exception "GEMINI_API_KEY is not set. Please define it in your .env file.")).
Proof.
  unfold load_api_key.
  destruct (environ !! "GEMINI_API_KEY") as [k|].
  - destruct (String.eqb_spec k "") as [->|Hne].
    + split.
      * intros key. split; [discriminate|]. intros [[= <-] Hk]. now contradict Hk.
      * split; [reflexivity|]. intros _. now right.
    + split.
      * intros key. split; [intros [= <-]; now split|]. now intros [[= <-] _].
      * split; [intros [?|[= ->]]; [discriminate|now contradict Hne]|discriminate].
  - split.
    + intros key. split; [discriminate|]. now intros [? _].
    + split; [reflexivity|]. intros _. now left.
Qed.
